(** * Cognitive Mirrors: the API client, the application shell and the
      server's fault handlers, embedded and verified

    Sources embedded here:
    - [js/api/cognitive.js]: class [CognitiveAPI], every method;
    - [js/app.js]: class [CognitiveApp]: [init], [startNewSession],
      [loadUserProfile], [initializeVisualizations],
      [initializeInteractiveElements], [createNavigation],
      [createHeroSection], [dispatchEvent], [getUserId], [showError];
    - [backend/server.js]: the [/api/health] route and
      [CognitiveServer.initializeErrorHandling];
    - [server.js]: the cluster master.

    Modelling conventions.
    - A JavaScript value is a [value]; numbers are IEEE-754 binary64, i.e.
      Rocq's primitive [float]; a string is a [string].
    - An [async] method is a computation in the monad [M]: it threads the
      [World] (localStorage, the fields of the application object and the
      trace of effects performed on the host) and either returns or throws.
      [await] is sequencing; a rejected promise is a throw.  What is thrown
      is an [exn]: an error object or any other value.  The language and
      the platform ([ToString], a property read, [JSON], [fetch]) throw
      error objects only; code that is not in the sources may throw
      anything, [null] and [undefined] included.  One logical flow is
      modelled: no other task of the page interleaves.
    - What the browser, Node or a module absent from the sources answers is
      read from a host record: an oracle indexed by the number of effects
      already performed, so that two calls at different times may differ.
      [JSON.parse], [JSON.stringify] and [fetch] are the host's.
    - [localStorage], [console] and [appendChild] calls succeed: storage
      quota and security errors are not modelled. *)

From Stdlib Require Import PrimFloat FloatOps SpecFloat ZArith Ascii String List.
From stdpp Require Import gmap strings list pretty.

Set Warnings "-register-all,-inexact-float".
Local Open Scope string_scope.
Local Open Scope Z_scope.

(** ** JavaScript values *)

Module JS.

(** The double quote character, for markup and messages that contain it. *)
Definition dq : string := String (ascii_of_nat 34) EmptyString.

Inductive value : Type :=
  | VUndefined
  | VNull
  | VBool (b : bool)
  | VNum (n : float)
  | VStr (s : string)
  | VArr (items : list value)
  | VObj (fields : list (string * value)).

(** An error object: [name] and [message] are the two properties the
    program reads. *)
Record js_error : Type := mkError { err_name : string; err_message : string }.

(** [new Error(msg)] with a string argument. *)
Definition Error (msg : string) : js_error := mkError "Error" msg.

(** The [TypeError] raised by the engine.  The message text is the one V8
    prints; no theorem below depends on it. *)
Definition TypeError (msg : string) : js_error := mkError "TypeError" msg.

(** What a [throw] statement or a rejected promise carries: an error
    object, or any other value ([throw null], [reject()] without a reason,
    a thrown string). *)
Inductive exn : Type :=
  | ExnError (e : js_error)
  | ExnValue (v : value).

(** An error object is thrown as it is. *)
Coercion ExnError : js_error >-> exn.

(** The result of evaluating an expression: a value, or what was thrown. *)
Inductive result (E A : Type) : Type :=
  | Ok (a : A)
  | Err (e : E).
Arguments Ok {E A} a.
Arguments Err {E A} & e.

(** A pair takes its type from where it stands, so that an error object
    written in the outcome of a method is read as the thing thrown. *)
Arguments pair {A B} & a b.

(** The result of an operation of the language or of the platform
    ([ToString], a property read, [JSON.parse], [fetch]), which throws error
    objects only. *)
Abbreviation res := (result js_error).

Definition res_bind {E A B} (r : result E A) (k : A -> result E B) : result E B :=
  match r with
  | Ok a => k a
  | Err e => Err e
  end.

(** [ToBoolean]: [undefined], [null], [false], [0], [-0], [NaN] and the empty
    string are falsy, everything else (every object and array) is truthy. *)
Definition number_truthy (n : float) : bool :=
  negb (PrimFloat.eqb n 0%float) && PrimFloat.eqb n n.

Definition truthy (v : value) : bool :=
  match v with
  | VUndefined | VNull => false
  | VBool b => b
  | VNum n => number_truthy n
  | VStr s => negb (s =? "")%string
  | VArr _ | VObj _ => true
  end.

(** [a || b] on values. *)
Definition or_else (a b : value) : value := if truthy a then a else b.

(** Own-property lookup in an object literal or a parsed JSON object. *)
Fixpoint lookup_field (k : string) (fields : list (string * value)) : option value :=
  match fields with
  | [] => None
  | (k', v) :: rest => if (k =? k')%string then Some v else lookup_field k rest
  end.

(** The property read [v.k], for the keys this program reads ([message],
    [healthy], [sessionId], none of which a prototype defines): a
    [TypeError] on [null] and [undefined], the own property of an object,
    [undefined] otherwise. *)
Definition get (v : value) (k : string) : res value :=
  match v with
  | VUndefined =>
      Err (TypeError ("Cannot read properties of undefined (reading '" +:+ k +:+ "')"))
  | VNull =>
      Err (TypeError ("Cannot read properties of null (reading '" +:+ k +:+ "')"))
  | VObj fields =>
      match lookup_field k fields with
      | Some x => Ok x
      | None => Ok VUndefined
      end
  | _ => Ok VUndefined
  end.

(** [error.message] in a [catch (error)] block: the message of an error
    object, the property read above on anything else that was thrown. *)
Definition thrown_message (error : exn) : res value :=
  match error with
  | ExnError e => Ok (VStr (err_message e))
  | ExnValue v => get v "message"
  end.

(** [obj[k] = v] on an object under construction: an existing key keeps its
    place and takes the new value, a new key goes last. *)
Fixpoint set_field (k : string) (v : value) (fields : list (string * value))
  : list (string * value) :=
  match fields with
  | [] => [(k, v)]
  | (k', v') :: rest =>
      if (k =? k')%string then (k, v) :: rest else (k', v') :: set_field k v rest
  end.

Definition index_key (i : nat) : string := pretty (N.of_nat i).

Fixpoint indexed {A} (f : A -> value) (i : nat) (l : list A) : list (string * value) :=
  match l with
  | [] => []
  | x :: rest => (index_key i, f x) :: indexed f (S i) rest
  end.

Definition char_value (c : ascii) : value := VStr (String c EmptyString).

(** The own enumerable properties that [...v] copies into an object
    literal: those of an object, the indices of an array or of a string,
    nothing for the other primitives. *)
Definition spread_entries (v : value) : list (string * value) :=
  match v with
  | VObj fields => fields
  | VArr items => indexed (fun x => x) 0 items
  | VStr s => indexed char_value 0 (list_ascii_of_string s)
  | _ => []
  end.

(** [{ ...fields, ...v }]. *)
Definition spread_into (fields : list (string * value)) (v : value)
  : list (string * value) :=
  fold_left (fun acc kv => set_field (fst kv) (snd kv) acc) (spread_entries v) fields.

Section Conversions.
(** [Number.prototype.toString] in base 10, the host's. *)
Variable number_toString : float -> string.

(** [ToString].  A plain object prints as [[object Object]] unless it has an
    own [toString] entry, which parsed data cannot make callable: the
    conversion then fails with a [TypeError].  [Array.prototype.join] prints
    [null] and [undefined] entries as the empty string. *)
Fixpoint to_string (v : value) : res string :=
  match v with
  | VUndefined => Ok "undefined"
  | VNull => Ok "null"
  | VBool true => Ok "true"
  | VBool false => Ok "false"
  | VNum n => Ok (number_toString n)
  | VStr s => Ok s
  | VArr items =>
      (fix join (l : list value) : res string :=
         match l with
         | [] => Ok ""
         | x :: rest =>
             res_bind (match x with
                       | VUndefined | VNull => Ok ""
                       | _ => to_string x
                       end)
               (fun sx =>
                  match rest with
                  | [] => Ok sx
                  | _ :: _ => res_bind (join rest) (fun sr => Ok (sx +:+ "," +:+ sr))
                  end)
         end) items
  | VObj fields =>
      match lookup_field "toString" fields with
      | Some _ => Err (TypeError "Cannot convert object to primitive value")
      | None => Ok "[object Object]"
      end
  end.

(** [new Error(v)]: the message is [ToString(v)], and there is no message
    for [undefined]. *)
Definition new_Error (v : value) : res js_error :=
  match v with
  | VUndefined => Ok (Error "")
  | _ => res_bind (to_string v) (fun s => Ok (Error s))
  end.

End Conversions.

End JS.

(** ** The host: browser, network and absent modules *)

Module Host.
Import JS.

(** The argument of [fetch(url, init)]; an absent [init] member is [None]. *)
Record request : Type := mkRequest {
  url : string;
  method : option string;
  headers : option (list (string * string));
  body : option string
}.

(** A [Response]: its status and what [response.json()] settles to (the
    parsed body, or the rejection when the body is not JSON). *)
Record response : Type := mkResponse {
  status : Z;
  json : res value
}.

(** [response.ok]: the status is in the range 200-299. *)
Definition ok (r : response) : bool := (200 <=? status r) && (status r <=? 299).

(** An element handed to [appendChild], as the program filled it in. *)
Record dom_node : Type := mkNode {
  tagName : string;
  className : string;
  innerHTML : string
}.

(** An argument of a [console] call: a literal or what was caught. *)
Inductive console_arg : Type :=
  | CStr (s : string)
  | CErr (e : exn).

(** The effects the program performs on its host, in program order. *)
Inductive event : Type :=
  | EvFetch (req : request)
  | EvConsole (level : string) (args : list console_arg)
  | EvSetItem (key item : string)
  | EvAppendChild (node : dom_node)
  | EvAddListener (target type : string)
  | EvDispatch (name : string) (detail : value)
  | EvCall (callee : string) (args : list value).

(** What the host answers.  The [nat] argument is the number of effects
    performed before the call. *)
Record t : Type := mkHost {
  (** [Number.prototype.toString] in base 10 *)
  number_toString : float -> string;
  (** [JSON.parse]; [Err] is the [SyntaxError] *)
  JSON_parse : string -> res value;
  (** [JSON.stringify] of an object; [Err] when it throws *)
  JSON_stringify : value -> res string;
  (** the percent-encoding of [URLSearchParams.prototype.toString] *)
  form_urlencode : string -> string;
  (** [fetch]: [Err] is the rejection on a network failure *)
  fetch_result : nat -> request -> res response;
  Date_now : nat -> float;
  Date_toISOString : nat -> string;
  (** [Math.random().toString(36)] *)
  Math_random_base36 : nat -> string;
  window_innerWidth : nat -> float;
  window_innerHeight : nat -> float;
  navigator_userAgent : string;
  (** whether [document.getElementById(id)] finds an element *)
  element_exists : nat -> string -> bool;
  (** the outcome of calling a function whose body is not in the sources
      (an imported module, a method the class does not define here): it
      returns, or throws anything *)
  external_result : nat -> string -> list value -> result exn value
}.

End Host.

(** ** The world and the monad of asynchronous methods *)

Module Run.
Import JS Host.

(** The fields of the [CognitiveApp] instance that the methods assign. *)
Record AppState : Type := mkApp {
  currentSession : value;
  userProfile : value;
  isInitialized : bool
}.

Record World : Type := mkWorld {
  storage : gmap string string;   (* localStorage *)
  app : AppState;                 (* this.currentSession, ... *)
  trace : list event              (* effects so far, oldest first *)
}.

(** The world right after [new CognitiveApp()], over a given localStorage. *)
Definition fresh (st : gmap string string) : World :=
  mkWorld st (mkApp VNull VNull false) [].

(** How a method ends: with a value, or with what it threw. *)
Abbreviation outcome := (result exn).

Definition M (A : Type) : Type := World -> outcome A * World.

Definition ret {A} (a : A) : M A := fun w => (Ok a, w).

Definition bind {A B} (m : M A) (k : A -> M B) : M B :=
  fun w =>
    match m w with
    | (Ok a, w') => k a w'
    | (Err e, w') => (Err e, w')
    end.

Definition throw {A} (e : exn) : M A := fun w => (Err e, w).

(** A pure expression that may throw. *)
Definition lift {A} (r : res A) : M A :=
  fun w =>
    match r with
    | Ok a => (Ok a, w)
    | Err e => (Err (ExnError e), w)
    end.

(** [try { body } catch (error) { handler }]: the effects of the body up to
    the throw are kept. *)
Definition try_catch {A} (body : M A) (handler : exn -> M A) : M A :=
  fun w =>
    match body w with
    | (Ok a, w') => (Ok a, w')
    | (Err e, w') => handler e w'
    end.

Notation "'let*' x ':=' c 'in' k" := (bind c (fun x => k))
  (at level 10, x name, c at level 200, k at level 200).

(** The number of effects performed so far: the index at which the host is
    consulted. *)
Definition clock : M nat := fun w => (Ok (length (trace w)), w).

Definition emit (ev : event) : M unit :=
  fun w => (Ok tt, mkWorld (storage w) (app w) (trace w ++ [ev])).

Definition console (level : string) (args : list console_arg) : M unit :=
  emit (EvConsole level args).

Definition localStorage_getItem (key : string) : M (option string) :=
  fun w => (Ok (storage w !! key), w).

Definition localStorage_setItem (key item : string) : M unit :=
  fun w => (Ok tt, mkWorld (<[key := item]> (storage w)) (app w)
                           (trace w ++ [EvSetItem key item])).

Definition set_currentSession (v : value) : M unit :=
  fun w => (Ok tt, mkWorld (storage w)
                     (mkApp v (userProfile (app w)) (isInitialized (app w))) (trace w)).

Definition set_userProfile (v : value) : M unit :=
  fun w => (Ok tt, mkWorld (storage w)
                     (mkApp (currentSession (app w)) v (isInitialized (app w))) (trace w)).

Definition this : M AppState := fun w => (Ok (app w), w).

Definition set_isInitialized (b : bool) : M unit :=
  fun w => (Ok tt, mkWorld (storage w)
                     (mkApp (currentSession (app w)) (userProfile (app w)) b) (trace w)).

Section WithHost.
Variable host : Host.t.

(** [fetch(url, init)]: the request is issued, then the host settles it. *)
Definition fetch (req : request) : M response :=
  let* n := clock in
  let* _ := emit (EvFetch req) in
  lift (fetch_result host n req).

(** A call into code that is not in the sources.  Where the program awaits
    the call, a promise it rejects is what it throws. *)
Definition external (callee : string) (args : list value) : M value :=
  let* n := clock in
  let* _ := emit (EvCall callee args) in
  fun w => (external_result host n callee args, w).

End WithHost.
End Run.

(** ** js/api/cognitive.js: class CognitiveAPI *)

Module Api.
Import JS Host Run.

Record CognitiveAPI : Type := mkAPI {
  baseURL : string;
  api_headers : list (string * string)
}.

(** [constructor(baseURL = '/api')] *)
Definition new_CognitiveAPI (base : option string) : CognitiveAPI :=
  mkAPI (default "/api" base)
        [("Content-Type", "application/json"); ("Accept", "application/json")].

Section Methods.
Variable host : Host.t.
Variable self : CognitiveAPI.

(** [async checkHealth()] *)
Definition checkHealth : M value :=
  try_catch
    (let* response := fetch host (mkRequest (baseURL self +:+ "/health") None None None) in
     if negb (ok response) then throw (Error "Health check failed")
     else lift (json response))
    (fun error =>
       let* _ := console "error" [CStr "Health check error:"; CErr error] in
       let* message := lift (thrown_message error) in
       ret (VObj [("healthy", VBool false); ("error", message)])).

(** The arguments of each [fetch], which JavaScript evaluates before the
    call: the URL template, then the [init] literal with its
    [JSON.stringify]. *)
Definition createSession_request (sessionData : value) : res request :=
  res_bind (JSON_stringify host sessionData) (fun payload =>
  Ok (mkRequest (baseURL self +:+ "/cognitive/session/start")
                (Some "POST") (Some (api_headers self)) (Some payload))).

Definition trackEvent_request (sessionId eventData : value) : res request :=
  res_bind (JSON_stringify host (VObj (spread_into [("sessionId", sessionId)] eventData)))
    (fun payload =>
  Ok (mkRequest (baseURL self +:+ "/cognitive/event")
                (Some "POST") (Some (api_headers self)) (Some payload))).

Definition completeSession_request (sessionId finalState : value) : res request :=
  res_bind (JSON_stringify host (VObj [("sessionId", sessionId); ("finalState", finalState)]))
    (fun payload =>
  Ok (mkRequest (baseURL self +:+ "/cognitive/session/complete")
                (Some "POST") (Some (api_headers self)) (Some payload))).

Definition getComparativeInsights_request (userId archetype : value) : res request :=
  res_bind (to_string (number_toString host) userId) (fun uid =>
  let url := baseURL self +:+ "/cognitive/comparative/" +:+ uid in
  res_bind (if truthy archetype
            then res_bind (to_string (number_toString host) archetype) (fun a =>
                 Ok ("archetype=" +:+ form_urlencode host a))
            else Ok "") (fun params =>
  Ok (mkRequest (url +:+ "?" +:+ params) None (Some (api_headers self)) None))).

Definition getVisualization_request (sessionId : value) : res request :=
  res_bind (to_string (number_toString host) sessionId) (fun sid =>
  Ok (mkRequest (baseURL self +:+ "/cognitive/visualization/" +:+ sid)
                None (Some (api_headers self)) None)).

(** [privacyLevel = 'public']: the default replaces [undefined] only. *)
Definition shareProfile_request (profileData privacyLevel : value) : res request :=
  let privacyLevel :=
    match privacyLevel with VUndefined => VStr "public" | v => v end in
  res_bind (JSON_stringify host
              (VObj [("profileData", profileData); ("privacyLevel", privacyLevel)]))
    (fun payload =>
  Ok (mkRequest (baseURL self +:+ "/cognitive/share")
                (Some "POST") (Some (api_headers self)) (Some payload))).

Definition findCognitiveMatches_request (userId desiredInteraction : value) : res request :=
  res_bind (JSON_stringify host
              (VObj [("userId", userId); ("desiredInteraction", desiredInteraction)]))
    (fun payload =>
  Ok (mkRequest (baseURL self +:+ "/cognitive/match")
                (Some "POST") (Some (api_headers self)) (Some payload))).

Definition getRecommendation_request (userId : value) : res request :=
  res_bind (to_string (number_toString host) userId) (fun uid =>
  Ok (mkRequest (baseURL self +:+ "/cognitive/recommendation/" +:+ uid)
                None (Some (api_headers self)) None)).

(** [async createSession(sessionData)] *)
Definition createSession (sessionData : value) : M value :=
  try_catch
    (let* req := lift (createSession_request sessionData) in
     let* response := fetch host req in
     if negb (ok response) then
       let* error := lift (json response) in
       let* message := lift (get error "message") in
       let* thrown := lift (new_Error (number_toString host)
                              (or_else message (VStr "Failed to create session"))) in
       throw thrown
     else lift (json response))
    (fun error =>
       let* _ := console "error" [CStr "Session creation error:"; CErr error] in
       throw error).

(** [async trackEvent(sessionId, eventData)] *)
Definition trackEvent (sessionId eventData : value) : M value :=
  try_catch
    (let* req := lift (trackEvent_request sessionId eventData) in
     let* response := fetch host req in
     if negb (ok response) then
       let* error := lift (json response) in
       let* message := lift (get error "message") in
       let* thrown := lift (new_Error (number_toString host)
                              (or_else message (VStr "Failed to track event"))) in
       throw thrown
     else lift (json response))
    (fun error =>
       let* _ := console "error" [CStr "Event tracking error:"; CErr error] in
       (* Don't throw for tracking errors - they shouldn't break the app *)
       ret VNull).

(** [async completeSession(sessionId, finalState)] *)
Definition completeSession (sessionId finalState : value) : M value :=
  try_catch
    (let* req := lift (completeSession_request sessionId finalState) in
     let* response := fetch host req in
     if negb (ok response) then
       let* error := lift (json response) in
       let* message := lift (get error "message") in
       let* thrown := lift (new_Error (number_toString host)
                              (or_else message (VStr "Failed to complete session"))) in
       throw thrown
     else lift (json response))
    (fun error =>
       let* _ := console "error" [CStr "Session completion error:"; CErr error] in
       throw error).

(** [async getComparativeInsights(userId, archetype)] *)
Definition getComparativeInsights (userId archetype : value) : M value :=
  try_catch
    (let* req := lift (getComparativeInsights_request userId archetype) in
     let* response := fetch host req in
     if negb (ok response) then
       let* error := lift (json response) in
       let* message := lift (get error "message") in
       let* thrown := lift (new_Error (number_toString host)
                              (or_else message (VStr "Failed to get comparative insights"))) in
       throw thrown
     else lift (json response))
    (fun error =>
       let* _ := console "error" [CStr "Comparative insights error:"; CErr error] in
       throw error).

(** [async getVisualization(sessionId)] *)
Definition getVisualization (sessionId : value) : M value :=
  try_catch
    (let* req := lift (getVisualization_request sessionId) in
     let* response := fetch host req in
     if negb (ok response) then
       let* error := lift (json response) in
       let* message := lift (get error "message") in
       let* thrown := lift (new_Error (number_toString host)
                              (or_else message (VStr "Failed to get visualization"))) in
       throw thrown
     else lift (json response))
    (fun error =>
       let* _ := console "error" [CStr "Visualization error:"; CErr error] in
       throw error).

(** [async shareProfile(profileData, privacyLevel = 'public')] *)
Definition shareProfile (profileData privacyLevel : value) : M value :=
  try_catch
    (let* req := lift (shareProfile_request profileData privacyLevel) in
     let* response := fetch host req in
     if negb (ok response) then
       let* error := lift (json response) in
       let* message := lift (get error "message") in
       let* thrown := lift (new_Error (number_toString host)
                              (or_else message (VStr "Failed to share profile"))) in
       throw thrown
     else lift (json response))
    (fun error =>
       let* _ := console "error" [CStr "Share profile error:"; CErr error] in
       throw error).

(** [async findCognitiveMatches(userId, desiredInteraction)] *)
Definition findCognitiveMatches (userId desiredInteraction : value) : M value :=
  try_catch
    (let* req := lift (findCognitiveMatches_request userId desiredInteraction) in
     let* response := fetch host req in
     if negb (ok response) then
       let* error := lift (json response) in
       let* message := lift (get error "message") in
       let* thrown := lift (new_Error (number_toString host)
                              (or_else message (VStr "Failed to find matches"))) in
       throw thrown
     else lift (json response))
    (fun error =>
       let* _ := console "error" [CStr "Match finding error:"; CErr error] in
       throw error).

(** [async getRecommendation(userId)] *)
Definition getRecommendation (userId : value) : M value :=
  try_catch
    (let* req := lift (getRecommendation_request userId) in
     let* response := fetch host req in
     if negb (ok response) then
       let* error := lift (json response) in
       let* message := lift (get error "message") in
       let* thrown := lift (new_Error (number_toString host)
                              (or_else message (VStr "Failed to get recommendation"))) in
       throw thrown
     else lift (json response))
    (fun error =>
       let* _ := console "error" [CStr "Recommendation error:"; CErr error] in
       throw error).

(** [HTTP ${response.status}]: a status is an integer, printed in decimal. *)
Definition http_status_message (r : response) : string := "HTTP " +:+ pretty (status r).

(** [async handleError(response)], the utility method.  No method of the
    class calls it. *)
Definition handleError (r : response) : M unit :=
  if negb (ok r) then
    let* errorMessage :=
      try_catch
        (let* error := lift (json r) in
         let* message := lift (get error "message") in
         ret (or_else message (VStr (http_status_message r))))
        (fun _ => ret (VStr (http_status_message r))) in
    let* thrown := lift (new_Error (number_toString host) errorMessage) in
    throw thrown
  else ret tt.

End Methods.

(** The seven user-facing operations, as one type. *)
Inductive operation : Type :=
  | CreateSession (sessionData : value)
  | CompleteSession (sessionId finalState : value)
  | GetComparativeInsights (userId archetype : value)
  | GetVisualization (sessionId : value)
  | ShareProfile (profileData privacyLevel : value)
  | FindCognitiveMatches (userId desiredInteraction : value)
  | GetRecommendation (userId : value).

Definition call (host : Host.t) (self : CognitiveAPI) (op : operation) : M value :=
  match op with
  | CreateSession d => createSession host self d
  | CompleteSession s f => completeSession host self s f
  | GetComparativeInsights u a => getComparativeInsights host self u a
  | GetVisualization s => getVisualization host self s
  | ShareProfile p l => shareProfile host self p l
  | FindCognitiveMatches u d => findCognitiveMatches host self u d
  | GetRecommendation u => getRecommendation host self u
  end.

Definition request_of (host : Host.t) (self : CognitiveAPI) (op : operation) : res request :=
  match op with
  | CreateSession d => createSession_request host self d
  | CompleteSession s f => completeSession_request host self s f
  | GetComparativeInsights u a => getComparativeInsights_request host self u a
  | GetVisualization s => getVisualization_request host self s
  | ShareProfile p l => shareProfile_request host self p l
  | FindCognitiveMatches u d => findCognitiveMatches_request host self u d
  | GetRecommendation u => getRecommendation_request host self u
  end.

(** The literal each method puts after [error.message ||]. *)
Definition fallback_message (op : operation) : string :=
  match op with
  | CreateSession _ => "Failed to create session"
  | CompleteSession _ _ => "Failed to complete session"
  | GetComparativeInsights _ _ => "Failed to get comparative insights"
  | GetVisualization _ => "Failed to get visualization"
  | ShareProfile _ _ => "Failed to share profile"
  | FindCognitiveMatches _ _ => "Failed to find matches"
  | GetRecommendation _ => "Failed to get recommendation"
  end.

(** The label each method logs before rethrowing. *)
Definition log_label (op : operation) : string :=
  match op with
  | CreateSession _ => "Session creation error:"
  | CompleteSession _ _ => "Session completion error:"
  | GetComparativeInsights _ _ => "Comparative insights error:"
  | GetVisualization _ => "Visualization error:"
  | ShareProfile _ _ => "Share profile error:"
  | FindCognitiveMatches _ _ => "Match finding error:"
  | GetRecommendation _ => "Recommendation error:"
  end.

End Api.

(** ** js/app.js: class CognitiveApp *)

Module App.
Import JS Host Run Api.

(** The static markup of [createNavigation] (the template literal assigned
    to [nav.innerHTML]). *)
Definition nav_markup : string :=
  "
            <div class=" +:+ dq +:+ "nav-container" +:+ dq +:+ ">
                <div class=" +:+ dq +:+ "nav-brand" +:+ dq +:+ ">
                    <span class=" +:+ dq +:+ "nav-logo" +:+ dq +:+ ">🧠</span>
                    <span class=" +:+ dq +:+ "nav-title" +:+ dq +:+ ">Cognitive Mirrors</span>
                </div>
                <div class=" +:+ dq +:+ "nav-links" +:+ dq +:+ ">
                    <a href=" +:+ dq +:+ "#puzzles" +:+ dq +:+ " class=" +:+ dq +:+ "nav-link" +:+ dq +:+ " data-navigate=" +:+ dq +:+ "puzzles" +:+ dq +:+ ">Puzzles</a>
                    <a href=" +:+ dq +:+ "#profile" +:+ dq +:+ " class=" +:+ dq +:+ "nav-link" +:+ dq +:+ " data-navigate=" +:+ dq +:+ "profile" +:+ dq +:+ ">Your Mind</a>
                    <a href=" +:+ dq +:+ "#compare" +:+ dq +:+ " class=" +:+ dq +:+ "nav-link" +:+ dq +:+ " data-navigate=" +:+ dq +:+ "compare" +:+ dq +:+ ">Compare</a>
                    <a href=" +:+ dq +:+ "#about" +:+ dq +:+ " class=" +:+ dq +:+ "nav-link" +:+ dq +:+ " data-navigate=" +:+ dq +:+ "about" +:+ dq +:+ ">About</a>
                </div>
                <div class=" +:+ dq +:+ "nav-actions" +:+ dq +:+ ">
                    <button class=" +:+ dq +:+ "btn-secondary" +:+ dq +:+ " id=" +:+ dq +:+ "themeToggle" +:+ dq +:+ ">
                        <span class=" +:+ dq +:+ "theme-icon" +:+ dq +:+ ">🌓</span>
                    </button>
                    <button class=" +:+ dq +:+ "btn-primary" +:+ dq +:+ " id=" +:+ dq +:+ "startPuzzle" +:+ dq +:+ ">
                        Start Journey
                    </button>
                </div>
            </div>
        ".

(** The static markup of [createHeroSection]. *)
Definition hero_markup : string :=
  "
            <div class=" +:+ dq +:+ "hero-container" +:+ dq +:+ ">
                <div class=" +:+ dq +:+ "hero-content" +:+ dq +:+ ">
                    <h1 class=" +:+ dq +:+ "hero-title" +:+ dq +:+ ">
                        Discover the 
                        <span class=" +:+ dq +:+ "gradient-text" +:+ dq +:+ ">Architecture</span>
                        of Your Mind
                    </h1>
                    <p class=" +:+ dq +:+ "hero-subtitle" +:+ dq +:+ ">
                        Every puzzle is a mirror. Every solution reveals what your conscious mind hides.
                        Uncover your cognitive patterns, biases, and unique thinking style through
                        interactive psychological games.
                    </p>
                    <div class=" +:+ dq +:+ "hero-stats" +:+ dq +:+ ">
                        <div class=" +:+ dq +:+ "stat" +:+ dq +:+ ">
                            <div class=" +:+ dq +:+ "stat-value" +:+ dq +:+ " id=" +:+ dq +:+ "totalPuzzles" +:+ dq +:+ ">0</div>
                            <div class=" +:+ dq +:+ "stat-label" +:+ dq +:+ ">Psychological Puzzles</div>
                        </div>
                        <div class=" +:+ dq +:+ "stat" +:+ dq +:+ ">
                            <div class=" +:+ dq +:+ "stat-value" +:+ dq +:+ " id=" +:+ dq +:+ "analyzedMinds" +:+ dq +:+ ">0</div>
                            <div class=" +:+ dq +:+ "stat-label" +:+ dq +:+ ">Minds Analyzed</div>
                        </div>
                        <div class=" +:+ dq +:+ "stat" +:+ dq +:+ ">
                            <div class=" +:+ dq +:+ "stat-value" +:+ dq +:+ " id=" +:+ dq +:+ "cognitiveBiases" +:+ dq +:+ ">24</div>
                            <div class=" +:+ dq +:+ "stat-label" +:+ dq +:+ ">Biases Detected</div>
                        </div>
                    </div>
                    <div class=" +:+ dq +:+ "hero-actions" +:+ dq +:+ ">
                        <button class=" +:+ dq +:+ "btn-hero-primary" +:+ dq +:+ " id=" +:+ dq +:+ "heroStart" +:+ dq +:+ ">
                            <span>Start Your Analysis</span>
                            <span class=" +:+ dq +:+ "arrow" +:+ dq +:+ ">→</span>
                        </button>
                        <button class=" +:+ dq +:+ "btn-hero-secondary" +:+ dq +:+ " id=" +:+ dq +:+ "watchDemo" +:+ dq +:+ ">
                            <span>Watch Demo</span>
                        </button>
                    </div>
                </div>
                <div class=" +:+ dq +:+ "hero-visualization" +:+ dq +:+ ">
                    <canvas id=" +:+ dq +:+ "heroCanvas" +:+ dq +:+ " width=" +:+ dq +:+ "600" +:+ dq +:+ " height=" +:+ dq +:+ "400" +:+ dq +:+ "></canvas>
                </div>
            </div>
        ".

(** The template of [showError], before and after the interpolated
    message. *)
Definition error_markup_before : string :=
  "
            <div class=" +:+ dq +:+ "error-content" +:+ dq +:+ ">
                <div class=" +:+ dq +:+ "error-icon" +:+ dq +:+ ">⚠️</div>
                <h3>Cognitive Engine Error</h3>
                <p>".

Definition error_markup_after : string :=
  "</p>
                <div class=" +:+ dq +:+ "error-actions" +:+ dq +:+ ">
                    <button onclick=" +:+ dq +:+ "location.reload()" +:+ dq +:+ " class=" +:+ dq +:+ "btn-primary" +:+ dq +:+ ">
                        Retry
                    </button>
                    <button onclick=" +:+ dq +:+ "this.closest('.error-overlay').remove()" +:+ dq +:+ " class=" +:+ dq +:+ "btn-secondary" +:+ dq +:+ ">
                        Continue Anyway
                    </button>
                </div>
            </div>
        ".

(** [this.colors], in insertion order ([Object.values]). *)
Definition colors : list (string * value) :=
  [("cognitiveBlue", VStr "#2A4B8C"); ("insightPurple", VStr "#6B46C1");
   ("awarenessTeal", VStr "#0D9488"); ("energyOrange", VStr "#EA580C");
   ("cautionYellow", VStr "#CA8A04")].

(** [this.api = new CognitiveAPI()] *)
Definition api : CognitiveAPI := new_CognitiveAPI None.

Definition user_id_key : string := "cognitive_user_id".
Definition profile_key (userId : string) : string := "cognitive_profile_" +:+ userId.

(** A stored item as the condition of an [if]: [null] and the empty string
    are falsy. *)
Definition item_truthy (item : option string) : bool :=
  match item with
  | Some s => negb (s =? "")%string
  | None => false
  end.

Section Methods.
Variable host : Host.t.

(** ['user_' + Date.now() + '_' + Math.random().toString(36).substr(2, 9)] *)
Definition generated_user_id (n : nat) : string :=
  "user_" +:+ number_toString host (Date_now host n) +:+ "_"
  +:+ substring 2 9 (Math_random_base36 host n).

(** [getUserId()] *)
Definition getUserId : M string :=
  let* userId := localStorage_getItem user_id_key in
  if negb (item_truthy userId) then
    let* n := clock in
    let userId := generated_user_id n in
    let* _ := localStorage_setItem user_id_key userId in
    ret userId
  else ret (default "" userId).

(** [async startNewSession()] *)
Definition startNewSession : M value :=
  let* userId := getUserId in
  let* n := clock in
  let sessionData :=
    VObj [("userId", VStr userId);
          ("puzzleType", VStr "ego_labyrinth");
          ("resolution", VStr (number_toString host (window_innerWidth host n) +:+ "x"
                               +:+ number_toString host (window_innerHeight host n)));
          ("userAgent", VStr (navigator_userAgent host));
          ("timestamp", VNum (Date_now host n))] in
  let* session := createSession host api sessionData in
  (* Store session ID *)
  let* sessionId := lift (get session "sessionId") in
  let* item := lift (to_string (number_toString host) sessionId) in
  let* _ := localStorage_setItem "cognitive_session_id" item in
  (* Track session start *)
  let* _ := external host "trackEvent"
              [VStr "session_start";
               VObj [("sessionId", sessionId); ("puzzleType", VStr "ego_labyrinth")]] in
  ret session.

(** The object literal of [loadUserProfile]. *)
Definition default_profile (userId createdAt : string) : value :=
  VObj [("userId", VStr userId);
        ("archetype", VNull);
        ("sessions", VArr []);
        ("createdAt", VStr createdAt);
        ("preferences", VObj [("theme", VStr "dark");
                              ("difficulty", VStr "adaptive");
                              ("hints", VBool true);
                              ("animations", VBool true)])].

(** [async loadUserProfile()].  [returned] is the value of the [return]
    inside the [try], when it is reached. *)
Definition loadUserProfile : M value :=
  let* userId := getUserId in
  let* storedProfile := localStorage_getItem (profile_key userId) in
  let* returned :=
    if item_truthy storedProfile then
      try_catch
        (let* parsed := lift (JSON_parse host (default "" storedProfile)) in
         ret (Some parsed))
        (fun e =>
           let* _ := console "warn" [CStr "Failed to parse stored profile:"; CErr e] in
           ret None)
    else ret None in
  match returned with
  | Some parsed => ret parsed
  | None =>
      (* Create new profile *)
      let* n := clock in
      let profile := default_profile userId (Date_toISOString host n) in
      let* item := lift (JSON_stringify host profile) in
      let* _ := localStorage_setItem (profile_key userId) item in
      ret profile
  end.

(** [document.getElementById(id).addEventListener(type, ...)]: a
    [TypeError] when no element has the id. *)
Definition addListenerById (id type : string) : M unit :=
  let* n := clock in
  if element_exists host n id then emit (EvAddListener id type)
  else throw (TypeError "Cannot read properties of null (reading 'addEventListener')").

(** [createNavigation()] *)
Definition createNavigation : M unit :=
  let nav := mkNode "nav" "cognitive-nav" nav_markup in
  let* _ := emit (EvAppendChild nav) in
  (* Add event listeners *)
  let* _ := addListenerById "themeToggle" "click" in
  let* _ := addListenerById "startPuzzle" "click" in
  (* Navigation links *)
  emit (EvAddListener "[data-navigate]" "click").

(** [createHeroSection()]; [animateStats] is not among the methods the
    sources define. *)
Definition createHeroSection : M unit :=
  let hero := mkNode "section" "cognitive-hero" hero_markup in
  let* _ := emit (EvAppendChild hero) in
  (* Animate stats *)
  let* _ := external host "this.animateStats" [] in
  (* Add event listeners *)
  let* _ := addListenerById "heroStart" "click" in
  addListenerById "watchDemo" "click".

(** [initializeInteractiveElements()]; [createPuzzleSelector] and
    [createUserPanel] are not among the methods the sources define. *)
Definition initializeInteractiveElements : M unit :=
  let* _ := createNavigation in
  let* _ := createHeroSection in
  let* _ := external host "this.createPuzzleSelector" [] in
  let* _ := external host "this.createUserPanel" [] in
  ret tt.

(** [async initializeVisualizations()]; [createNeuralVisualization] is
    imported from [./visualizations/neural.js]. *)
Definition initializeVisualizations : M unit :=
  let* _ := external host "createNeuralVisualization"
              [VStr "neuralBackground";
               VObj [("nodes", VNum 50%float);
                     ("connections", VNum 100%float);
                     ("colors", VArr (map snd colors));
                     ("speed", VNum 0.5%float);
                     ("opacity", VNum 0.3%float)]] in
  initializeInteractiveElements.

(** [dispatchEvent(name, data)] *)
Definition dispatchEvent (name : string) (data : value) : M unit :=
  emit (EvDispatch name data).

(** The overlay [showError] builds for an error object: [error.message ||
    'An unexpected error occurred'] between the two halves of the
    template. *)
Definition error_overlay (error : js_error) : dom_node :=
  mkNode "div" "error-overlay"
    (error_markup_before
     +:+ (if (err_message error =? "")%string then "An unexpected error occurred"
          else err_message error)
     +:+ error_markup_after).

(** The element [showError] appends, around the text the template
    printed. *)
Definition overlay_with (text : string) : dom_node :=
  mkNode "div" "error-overlay" (error_markup_before +:+ text +:+ error_markup_after).

(** [showError(error)], for whatever was caught.  The template literal reads
    [error.message], a [TypeError] when [error] is [null] or [undefined],
    and prints the message or the fixed text with [ToString]; the element is
    appended after the template is evaluated. *)
Definition showError (error : exn) : M unit :=
  let* message := lift (thrown_message error) in
  let* text := lift (to_string (number_toString host)
                       (or_else message (VStr "An unexpected error occurred"))) in
  emit (EvAppendChild (overlay_with text)).

(** [async init()]; [startSession] is imported from
    [./analytics/tracker.js]. *)
Definition init : M bool :=
  try_catch
    (let* _ := console "log" [CStr "🧠 Initializing Cognitive Mirrors..."] in
     (* Check API health *)
     let* health := checkHealth host api in
     let* healthy := lift (get health "healthy") in
     if negb (truthy healthy) then throw (Error "API server is not available")
     else
       (* Initialize session *)
       let* session := startNewSession in
       let* _ := set_currentSession session in
       (* Load user profile if exists *)
       let* profile := loadUserProfile in
       let* _ := set_userProfile profile in
       (* Initialize visualizations *)
       let* _ := initializeVisualizations in
       (* Start analytics *)
       let* _ := external host "startSession" [] in
       let* _ := set_isInitialized true in
       let* _ := console "log" [CStr "✅ Cognitive Mirrors initialized successfully"] in
       (* Dispatch ready event *)
       let* self := this in
       let* _ := dispatchEvent "app:ready"
                   (VObj [("session", currentSession self);
                          ("profile", userProfile self)]) in
       ret true)
    (fun error =>
       let* _ := console "error" [CStr "❌ Failed to initialize app:"; CErr error] in
       let* _ := showError error in
       ret false).

End Methods.
End App.

(** ** backend/server.js: the health route and the fault handlers *)

Module Server.
Import JS Host.

(** What the Node process answers to the server. *)
Record runtime : Type := mkRuntime {
  node_number_toString : float -> string;
  node_toISOString : nat -> string;        (* new Date().toISOString() *)
  process_uptime : nat -> float;
  process_memoryUsage : nat -> value;
  mongoose_readyState : nat -> float;      (* mongoose.connection.readyState *)
  (** [logError] of [./middleware/logger]: [Some e] when the call throws *)
  logError_result : nat -> option js_error
}.

(** The fields of [CognitiveServer] the modelled methods read:
    [this.nodeEnv = process.env.NODE_ENV || 'development']. *)
Record CognitiveServer : Type := mkServer { nodeEnv : string }.

Definition new_CognitiveServer (NODE_ENV : option string) : CognitiveServer :=
  mkServer (match NODE_ENV with
            | Some e => if (e =? "")%string then "development" else e
            | None => "development"
            end).

(** What a route handler sends with [res.status(code).json(body)]. *)
Record sent : Type := mkSent { sent_status : Z; sent_body : value }.

(** The handler of [GET /api/health], answering at time [n]. *)
Definition health_route (node : runtime) (self : CognitiveServer) (n : nat) : sent :=
  mkSent 200
    (VObj [("status", VStr "healthy");
           ("timestamp", VStr (node_toISOString node n));
           ("uptime", VNum (process_uptime node n));
           ("memory", process_memoryUsage node n);
           ("environment", VStr (nodeEnv self));
           ("database",
            VStr (if PrimFloat.eqb (mongoose_readyState node n) 1%float
                  then "connected" else "disconnected"))]).

(** The [Response] the client's [fetch] resolves to when the handler's
    answer reaches it unchanged: [res.json] serialises the body and
    [response.json()] parses it back. *)
Definition delivered (s : sent) : response := mkResponse (sent_status s) (Ok (sent_body s)).

(** A rejection reason or a thrown thing: an error object or any value. *)
Inductive thrown : Type :=
  | ThrownError (e : js_error)
  | ThrownValue (v : value).

(** A fault of the process. *)
Inductive fault : Type :=
  | UnhandledRejection (reason : thrown) (promise : nat)
  | UncaughtException (error : js_error).

Inductive log_arg : Type :=
  | LStr (s : string)
  | LErr (e : js_error)
  | LThrown (t : thrown)
  | LPromise (p : nat).

Inductive server_event : Type :=
  | SUse (middleware : string)                       (* this.app.use(...) *)
  | SConsoleError (args : list log_arg)             (* console.error(...) *)
  | SLogError (e : js_error) (context : list (string * log_arg)).

(** The two closures [initializeErrorHandling] registers. *)
Inductive listener : Type :=
  | RejectionListener
  | ExceptionListener.

Record process : Type := mkProcess {
  listeners : list (string * listener);   (* process.on(name, listener) *)
  events : list server_event;             (* effects so far, oldest first *)
  exit_code : option Z                    (* Some c once the process has exited *)
}.

Definition booted : process := mkProcess [] [] None.

(** How a piece of server code ends: it returns, it throws, or it ends the
    process with [process.exit(code)]. *)
Inductive ending (A : Type) : Type :=
  | Returns (a : A)
  | Throws (e : js_error)
  | Exits (code : Z).
Arguments Returns {A} a.
Arguments Throws {A} e.
Arguments Exits {A} code.

Definition P (A : Type) : Type := process -> ending A * process.

Definition pret {A} (a : A) : P A := fun p => (Returns a, p).

Definition pbind {A B} (m : P A) (k : A -> P B) : P B :=
  fun p =>
    match m p with
    | (Returns a, p') => k a p'
    | (Throws e, p') => (Throws e, p')
    | (Exits c, p') => (Exits c, p')
    end.

Notation "'run*' x ':=' c 'in' k" := (pbind c (fun x => k))
  (at level 10, x name, c at level 200, k at level 200).

Definition record (ev : server_event) : P unit :=
  fun p => (Returns tt, mkProcess (listeners p) (events p ++ [ev]) (exit_code p)).

Definition process_on (name : string) (l : listener) : P unit :=
  fun p => (Returns tt, mkProcess (listeners p ++ [(name, l)]) (events p) (exit_code p)).

(** [process.exit(code)]: nothing after it runs. *)
Definition process_exit (code : Z) : P unit :=
  fun p => (Exits code, mkProcess (listeners p) (events p) (Some code)).

(** [Error.prototype.toString]. *)
Definition error_toString (e : js_error) : string :=
  if (err_name e =? "")%string then err_message e
  else if (err_message e =? "")%string then err_name e
  else err_name e +:+ ": " +:+ err_message e.

Section Handlers.
Variable node : runtime.

(** [logError(error, context)], imported. *)
Definition logError (e : js_error) (context : list (string * log_arg)) : P unit :=
  fun p =>
    let n := length (events p) in
    let p' := mkProcess (listeners p) (events p ++ [SLogError e context]) (exit_code p) in
    match logError_result node n with
    | Some thrown_by_logger => (Throws thrown_by_logger, p')
    | None => (Returns tt, p')
    end.

(** [`${reason}`] *)
Definition thrown_toString (t : thrown) : res string :=
  match t with
  | ThrownError e => Ok (error_toString e)
  | ThrownValue v => to_string (node_number_toString node) v
  end.

(** The body of each registered closure. *)
Definition run_listener (l : listener) (f : fault) : P unit :=
  match l, f with
  | RejectionListener, UnhandledRejection reason promise =>
      run* _ := record (SConsoleError [LStr "❌ Unhandled Rejection at:"; LPromise promise;
                                       LStr "reason:"; LThrown reason]) in
      match thrown_toString reason with
      | Ok text => logError (Error ("Unhandled Rejection: " +:+ text)) [("promise", LPromise promise)]
      | Err e => fun p => (Throws e, p)
      end
  | ExceptionListener, UncaughtException error =>
      run* _ := record (SConsoleError [LStr "❌ Uncaught Exception:"; LErr error]) in
      run* _ := logError error [("type", LStr "uncaughtException")] in
      process_exit 1
  | _, _ => pret tt
  end.

(** [initializeErrorHandling()] *)
Definition initializeErrorHandling : P unit :=
  (* 404 handler *)
  run* _ := record (SUse "notFound") in
  (* Global error handler *)
  run* _ := record (SUse "errorHandler") in
  (* Unhandled rejection handler *)
  run* _ := process_on "unhandledRejection" RejectionListener in
  (* Uncaught exception handler *)
  process_on "uncaughtException" ExceptionListener.

(** *** How Node delivers a fault *)

Definition listeners_for (name : string) (p : process) : list listener :=
  map snd (List.filter (fun nl => (fst nl =? name)%string) (listeners p)).

Fixpoint run_listeners (ls : list listener) (f : fault) : P unit :=
  match ls with
  | [] => pret tt
  | l :: rest => run* _ := run_listener l f in run_listeners rest f
  end.

(** ['uncaughtException']: without a listener Node prints the error and
    exits with code 1; with listeners it runs them and goes on, and a
    listener that throws ends the process with code 7. *)
Definition deliver_exception (error : js_error) : process -> process :=
  fun p =>
    match listeners_for "uncaughtException" p with
    | [] => mkProcess (listeners p) (events p ++ [SConsoleError [LErr error]]) (Some 1)
    | ls =>
        match run_listeners ls (UncaughtException error) p with
        | (Returns _, p') => p'
        | (Exits _, p') => p'
        | (Throws _, p') => mkProcess (listeners p') (events p') (Some 7)
        end
    end.

(** ['unhandledRejection']: without a listener the reason is raised as an
    uncaught exception; with listeners Node runs them and goes on, and what
    a listener throws is an uncaught exception. *)
Definition reason_error (t : thrown) : js_error :=
  match t with
  | ThrownError e => e
  | ThrownValue _ => mkError "Error" "ERR_UNHANDLED_REJECTION"
  end.

Definition deliver (f : fault) (p : process) : process :=
  match f with
  | UncaughtException error => deliver_exception error p
  | UnhandledRejection reason promise =>
      match listeners_for "unhandledRejection" p with
      | [] => deliver_exception (reason_error reason) p
      | ls =>
          match run_listeners ls f p with
          | (Returns _, p') => p'
          | (Exits _, p') => p'
          | (Throws e, p') => deliver_exception e p'
          end
      end
  end.

(** The process once the constructor has run [initializeErrorHandling]. *)
Definition serving : process := snd (initializeErrorHandling booted).

End Handlers.

(** *** server.js, the entry point: the cluster master *)

(** The lines the master prints; a worker is named by its cluster id. *)
Inductive master_event : Type :=
  | MRunning                     (* `Master ${process.pid} is running` *)
  | MStarting (numCPUs : nat)    (* `Starting ${numCPUs} workers...` *)
  | MWorkerDied (id : nat).      (* `Worker ${pid} died. Restarting...` *)

Record master : Type := mkMaster {
  workers : list nat;            (* cluster.workers, by worker id *)
  next_worker : nat;             (* the id the next fork gets *)
  master_log : list master_event
}.

(** [cluster.fork()] *)
Definition cluster_fork (m : master) : master :=
  mkMaster (workers m ++ [next_worker m]) (S (next_worker m)) (master_log m).

(** The master's branch of the entry point, up to its signal handler:
    [for (let i = 0; i < Math.min(numCPUs, 4); i++) cluster.fork()]. *)
Definition start_master (numCPUs : nat) : master :=
  Nat.iter (Nat.min numCPUs 4) cluster_fork
    (mkMaster [] 1 [MRunning; MStarting numCPUs]).

(** The listener of [cluster.on('exit', ...)]. *)
Definition on_exit (worker : nat) (m : master) : master :=
  cluster_fork (mkMaster (workers m) (next_worker m) (master_log m ++ [MWorkerDied worker])).

(** A worker process ends: the cluster drops it from [cluster.workers] and
    emits ['exit']. *)
Definition worker_exited (worker : nat) (m : master) : master :=
  on_exit worker
    (mkMaster (List.filter (fun id => negb (Nat.eqb id worker)) (workers m))
              (next_worker m) (master_log m)).

End Server.

(** ** A reference host

    A concrete host on which the methods can be run: a JSON printer and
    reader for the values above, and fixed answers for the clock, the
    window and the absent modules.  It prints a number as its exact decimal
    expansion, which is the browser's text for the integers below 2^53, and
    it reads back integer literals only. *)

Module Reference.
Import JS Host.

Definition dquote : ascii := ascii_of_nat 34.
Definition backslash : ascii := ascii_of_nat 92.

Definition hex_digit (n : N) : ascii :=
  ascii_of_N (if (n <? 10)%N then 48 + n else 87 + n)%N.

Definition hex_byte (c : ascii) : string :=
  let n := N_of_ascii c in
  String (hex_digit (n / 16)) (String (hex_digit (n mod 16)) EmptyString).

(** *** Numbers *)

Definition float_of_Z (z : Z) : float := SF2Prim (binary_normalize prec emax z 0 false).

Fixpoint strip_trailing_zeros (digits_rev : list ascii) : list ascii :=
  match digits_rev with
  | c :: rest => if Ascii.eqb c "0" then strip_trailing_zeros rest else digits_rev
  | [] => []
  end.

(** [m / 2^k] in decimal, for [k > 0]: the digits of [m * 5^k] with the
    point [k] places from the right. *)
Definition dyadic_toString (m : positive) (k : Z) : string :=
  let scaled := Z.pos m * 5 ^ k in
  let whole := scaled / 10 ^ k in
  let part := scaled mod 10 ^ k in
  let digits := list_ascii_of_string (pretty part) in
  let padded := (repeat "0"%char (Z.to_nat k - length digits) ++ digits)%list in
  let fraction := rev (strip_trailing_zeros (rev padded)) in
  match fraction with
  | [] => pretty whole
  | _ => pretty whole +:+ "." +:+ string_of_list_ascii fraction
  end.

Definition number_toString (x : float) : string :=
  match Prim2SF x with
  | S754_nan => "NaN"
  | S754_infinity negative => if negative then "-Infinity" else "Infinity"
  | S754_zero _ => "0"
  | S754_finite negative m e =>
      (if negative then "-" else "")
      +:+ (if 0 <=? e then pretty (Z.pos m * 2 ^ e) else dyadic_toString m (- e))
  end.

Definition is_finite (x : float) : bool :=
  match Prim2SF x with
  | S754_nan | S754_infinity _ => false
  | _ => true
  end.

(** *** JSON.stringify *)

Definition escape_char (c : ascii) : string :=
  if Ascii.eqb c dquote then String backslash (String dquote EmptyString)
  else if Ascii.eqb c backslash then String backslash (String backslash EmptyString)
  else if (N_of_ascii c <? 32)%N then String backslash ("u00" +:+ hex_byte c)
  else String c EmptyString.

Definition quote (s : string) : string :=
  dq +:+ String.concat "" (map escape_char (list_ascii_of_string s)) +:+ dq.

(** An [undefined] member is left out of an object and printed as [null]
    in an array. *)
Fixpoint stringify (v : value) : string :=
  match v with
  | VUndefined | VNull => "null"
  | VBool true => "true"
  | VBool false => "false"
  | VNum n => if is_finite n then number_toString n else "null"
  | VStr s => quote s
  | VArr items => "[" +:+ String.concat "," (map stringify items) +:+ "]"
  | VObj fields =>
      "{" +:+ String.concat ","
                ((fix members (l : list (string * value)) : list string :=
                    match l with
                    | [] => []
                    | (k, x) :: rest =>
                        match x with
                        | VUndefined => members rest
                        | _ => (quote k +:+ ":" +:+ stringify x) :: members rest
                        end
                    end) fields)
          +:+ "}"
  end.

(** *** JSON.parse *)

Definition is_space (c : ascii) : bool :=
  Ascii.eqb c " " || (N_of_ascii c =? 9)%N || (N_of_ascii c =? 10)%N || (N_of_ascii c =? 13)%N.

Fixpoint skip_space (l : list ascii) : list ascii :=
  match l with
  | c :: rest => if is_space c then skip_space rest else l
  | [] => []
  end.

Fixpoint strip_prefix (prefix l : list ascii) : option (list ascii) :=
  match prefix, l with
  | [], _ => Some l
  | p :: prefix', c :: rest => if Ascii.eqb p c then strip_prefix prefix' rest else None
  | _ :: _, [] => None
  end.

Definition hex_value (c : ascii) : option N :=
  let n := N_of_ascii c in
  if (48 <=? n)%N && (n <=? 57)%N then Some (n - 48)%N
  else if (97 <=? n)%N && (n <=? 102)%N then Some (n - 87)%N
  else if (65 <=? n)%N && (n <=? 70)%N then Some (n - 55)%N
  else None.

(** The characters of a string literal after its opening quote.  Of the
    [\u] escapes it reads those below U+0100. *)
Fixpoint read_string (l : list ascii) : option (string * list ascii) :=
  match l with
  | [] => None
  | c :: rest =>
      if Ascii.eqb c dquote then Some (EmptyString, rest)
      else if Ascii.eqb c backslash then
        match rest with
        | "u"%char :: "0"%char :: "0"%char :: h :: l' :: rest' =>
            match hex_value h, hex_value l', read_string rest' with
            | Some a, Some b, Some (s, out) => Some (String (ascii_of_N (16 * a + b)) s, out)
            | _, _, _ => None
            end
        | e :: rest' =>
            let plain (x : ascii) :=
              match read_string rest' with
              | Some (s, out) => Some (String x s, out)
              | None => None
              end in
            if Ascii.eqb e dquote then plain dquote
            else if Ascii.eqb e backslash then plain backslash
            else if Ascii.eqb e "/" then plain "/"%char
            else if Ascii.eqb e "n" then plain (ascii_of_nat 10)
            else if Ascii.eqb e "t" then plain (ascii_of_nat 9)
            else if Ascii.eqb e "r" then plain (ascii_of_nat 13)
            else if Ascii.eqb e "b" then plain (ascii_of_nat 8)
            else if Ascii.eqb e "f" then plain (ascii_of_nat 12)
            else None
        | [] => None
        end
      else if (N_of_ascii c <? 32)%N then None
      else
        match read_string rest with
        | Some (s, out) => Some (String c s, out)
        | None => None
        end
  end.

Definition is_digit (c : ascii) : bool :=
  (48 <=? N_of_ascii c)%N && (N_of_ascii c <=? 57)%N.

Fixpoint read_digits (acc : Z) (l : list ascii) : Z * list ascii :=
  match l with
  | c :: rest =>
      if is_digit c then read_digits (10 * acc + Z.of_N (N_of_ascii c - 48)) rest
      else (acc, l)
  | [] => (acc, [])
  end.

Definition read_number (l : list ascii) : option (value * list ascii) :=
  let '(negative, l) :=
    match l with
    | "-"%char :: rest => (true, rest)
    | _ => (false, l)
    end in
  match l with
  | c :: _ =>
      if is_digit c then
        let '(z, rest) := read_digits 0 l in
        match rest with
        | "."%char :: _ | "e"%char :: _ | "E"%char :: _ => None
        | _ => Some (VNum (float_of_Z (if negative then - z else z)), rest)
        end
      else None
  | [] => None
  end.

(** One value, then the input after it.  [fuel] bounds the nesting of the
    calls; twice the length of the input is enough. *)
Fixpoint read_value (fuel : nat) (l : list ascii) : option (value * list ascii) :=
  match fuel with
  | O => None
  | S fuel =>
      match skip_space l with
      | [] => None
      | c :: rest =>
          if Ascii.eqb c dquote then
            match read_string rest with
            | Some (s, out) => Some (VStr s, out)
            | None => None
            end
          else if Ascii.eqb c "[" then
            match skip_space rest with
            | "]"%char :: out => Some (VArr [], out)
            | _ =>
                match read_items fuel rest with
                | Some (items, out) => Some (VArr items, out)
                | None => None
                end
            end
          else if Ascii.eqb c "{" then
            match skip_space rest with
            | "}"%char :: out => Some (VObj [], out)
            | _ =>
                match read_members fuel rest with
                | Some (members, out) =>
                    (* a repeated key keeps its first place and its last value *)
                    Some (VObj (fold_left (fun acc kv => set_field (fst kv) (snd kv) acc)
                                          members []), out)
                | None => None
                end
            end
          else
            match strip_prefix (list_ascii_of_string "null") (c :: rest),
                  strip_prefix (list_ascii_of_string "true") (c :: rest),
                  strip_prefix (list_ascii_of_string "false") (c :: rest) with
            | Some out, _, _ => Some (VNull, out)
            | _, Some out, _ => Some (VBool true, out)
            | _, _, Some out => Some (VBool false, out)
            | None, None, None => read_number (c :: rest)
            end
      end
  end
with read_items (fuel : nat) (l : list ascii) : option (list value * list ascii) :=
  match fuel with
  | O => None
  | S fuel =>
      match read_value fuel l with
      | Some (v, out) =>
          match skip_space out with
          | ","%char :: out' =>
              match read_items fuel out' with
              | Some (vs, out'') => Some (v :: vs, out'')
              | None => None
              end
          | "]"%char :: out' => Some ([v], out')
          | _ => None
          end
      | None => None
      end
  end
with read_members (fuel : nat) (l : list ascii)
  : option (list (string * value) * list ascii) :=
  match fuel with
  | O => None
  | S fuel =>
      match skip_space l with
      | c :: rest =>
          if Ascii.eqb c dquote then
            match read_string rest with
            | Some (k, out) =>
                match skip_space out with
                | ":"%char :: out' =>
                    match read_value fuel out' with
                    | Some (v, out'') =>
                        match skip_space out'' with
                        | ","%char :: more =>
                            match read_members fuel more with
                            | Some (kvs, final) => Some ((k, v) :: kvs, final)
                            | None => None
                            end
                        | "}"%char :: final => Some ([(k, v)], final)
                        | _ => None
                        end
                    | None => None
                    end
                | _ => None
                end
            | None => None
            end
          else None
      | [] => None
      end
  end.

Definition SyntaxError : js_error := mkError "SyntaxError" "Unexpected token in JSON".

Definition parse (s : string) : res value :=
  let input := list_ascii_of_string s in
  match read_value (2 * length input + 2)%nat input with
  | Some (v, out) =>
      match skip_space out with
      | [] => Ok v
      | _ :: _ => Err SyntaxError
      end
  | None => Err SyntaxError
  end.

(** *** The host *)

Definition unreserved (c : ascii) : bool :=
  let n := N_of_ascii c in
  is_digit c || ((65 <=? n)%N && (n <=? 90)%N) || ((97 <=? n)%N && (n <=? 122)%N)
  || Ascii.eqb c "*" || Ascii.eqb c "-" || Ascii.eqb c "." || Ascii.eqb c "_".

Definition urlencode (s : string) : string :=
  String.concat ""
    (map (fun c => if unreserved c then String c EmptyString
                   else if Ascii.eqb c " " then "+"
                   else "%" +:+ hex_byte c)
         (list_ascii_of_string s)).

(** A browser whose network answers [net] and whose absent modules answer
    [ext]. *)
Definition browser (net : nat -> request -> res response)
                   (ext : nat -> string -> list value -> result exn value) : Host.t :=
  {| Host.number_toString := number_toString;
     JSON_parse := parse;
     JSON_stringify := fun v => Ok (stringify v);
     form_urlencode := urlencode;
     fetch_result := net;
     Date_now := fun n => float_of_Z (1700000000000 + Z.of_nat n);
     Date_toISOString := fun _ => "2023-11-14T22:13:20.000Z";
     Math_random_base36 := fun _ => "0.4fzyo82mvyr";
     window_innerWidth := fun _ => 1280%float;
     window_innerHeight := fun _ => 720%float;
     navigator_userAgent := "Mozilla/5.0";
     element_exists := fun _ _ => true;
     external_result := ext |}.

Definition offline : nat -> request -> res response :=
  fun _ _ => Err (TypeError "Failed to fetch").

Definition answering (r : response) : nat -> request -> res response :=
  fun _ _ => Ok r.

Definition quiet : nat -> string -> list value -> result exn value :=
  fun _ _ _ => Ok VUndefined.

(** A Node process whose logger never throws, with a connected database. *)
Definition node : Server.runtime :=
  {| Server.node_number_toString := number_toString;
     Server.node_toISOString := fun _ => "2023-11-14T22:13:20.000Z";
     Server.process_uptime := fun _ => 12.5%float;
     Server.process_memoryUsage := fun _ =>
       VObj [("rss", VNum 52428800%float); ("heapUsed", VNum 20971520%float)];
     Server.mongoose_readyState := fun _ => 1%float;
     Server.logError_result := fun _ => None |}.

End Reference.

(** * The vocabulary of the statements *)

Module Outcomes.
Import JS Host Run Api App.

(** The world after further effects. *)
Definition after (w : World) (evs : list event) : World :=
  mkWorld (storage w) (app w) (trace w ++ evs).

(** A computation that only adds to the record of effects: whatever it
    did comes after what had been done. *)
Definition appends {A} (m : M A) : Prop :=
  forall w r w', m w = (r, w') -> exists evs, trace w' = (trace w ++ evs)%list.

(** What the methods that rethrow have in common: the request, the literal
    after [||] and the label of the log line. *)
Definition rethrowing (host : Host.t) (rq : res request) (fallback label : string)
  : M value :=
  try_catch
    (let* req := lift rq in
     let* response := fetch host req in
     if negb (ok response) then
       let* error := lift (json response) in
       let* message := lift (get error "message") in
       let* thrown := lift (new_Error (number_toString host)
                              (or_else message (VStr fallback))) in
       throw thrown
     else lift (json response))
    (fun error =>
       let* _ := console "error" [CStr label; CErr error] in
       throw error).

(** What the body of a non-2xx response turns into. *)
Definition error_of_body (host : Host.t) (fallback : string) (r : response) : js_error :=
  match json r with
  | Err e => e
  | Ok body =>
      match get body "message" with
      | Err e => e
      | Ok message =>
          match new_Error (number_toString host) (or_else message (VStr fallback)) with
          | Ok thrown => thrown
          | Err e => e
          end
      end
  end.

(** The request of [checkHealth]: [fetch(`${this.baseURL}/health`)]. *)
Definition health_request (self : CognitiveAPI) : request :=
  mkRequest (baseURL self +:+ "/health") None None None.

(** [{ healthy: false, error: message }] *)
Definition unhealthy (message : string) : value :=
  VObj [("healthy", VBool false); ("error", VStr message)].

(** The world after [localStorage.setItem(key, item)]. *)
Definition stored (w : World) (key item : string) : World :=
  mkWorld (<[key := item]> (storage w)) (app w) (trace w ++ [EvSetItem key item]).

(** [loadUserProfile] after its call of [getUserId], on the stored blob. *)
Definition load_for (host : Host.t) (userId : string) : M value :=
  fun w =>
    let create (w' : World) : outcome value * World :=
      let profile := default_profile userId (Date_toISOString host (length (trace w'))) in
      match JSON_stringify host profile with
      | Ok item => (Ok profile, stored w' (profile_key userId) item)
      | Err e => (Err e, w')
      end in
    match storage w !! profile_key userId with
    | None => create w
    | Some blob =>
        if (blob =? "")%string then create w
        else
          match JSON_parse host blob with
          | Ok parsed => (Ok parsed, w)
          | Err e =>
              create (after w [EvConsole "warn" [CStr "Failed to parse stored profile:"; CErr e]])
          end
    end.

(** The five steps of [init], each as the statements of [init] that make
    it up. *)
Definition health_step (host : Host.t) : M unit :=
  let* health := checkHealth host api in
  let* healthy := lift (get health "healthy") in
  if negb (truthy healthy) then throw (Error "API server is not available")
  else ret tt.

Definition session_step (host : Host.t) : M unit :=
  let* session := startNewSession host in
  set_currentSession session.

Definition profile_step (host : Host.t) : M unit :=
  let* profile := loadUserProfile host in
  set_userProfile profile.

Definition visuals_step (host : Host.t) : M unit := initializeVisualizations host.

Definition tracking_step (host : Host.t) : M unit :=
  let* _ := external host "startSession" [] in
  ret tt.

Definition init_banner : event :=
  EvConsole "log" [CStr "🧠 Initializing Cognitive Mirrors..."].

(** How [init] ends after a step threw the error object [e] in world [w]:
    the error is logged, the overlay is appended to the page, and [false]
    is returned. *)
Definition aborted (e : js_error) (w : World) : outcome bool * World :=
  (Ok false,
   after w [EvConsole "error" [CStr "❌ Failed to initialize app:"; CErr e];
            EvAppendChild (error_overlay e)]).

(** The line the handler of [init] writes to the console. *)
Definition init_failure (error : exn) : event :=
  EvConsole "error" [CStr "❌ Failed to initialize app:"; CErr error].

(** How [init] ends after a step threw [error] in world [w], whatever
    [error] is: it is logged, then [showError] either appends the overlay,
    and [false] is returned, or throws, and [init] throws with it. *)
Definition caught (host : Host.t) (error : exn) (w : World) : outcome bool * World :=
  match thrown_message error with
  | Err e => (Err e, after w [init_failure error])
  | Ok message =>
      match to_string (number_toString host)
              (or_else message (VStr "An unexpected error occurred")) with
      | Err e => (Err e, after w [init_failure error])
      | Ok text =>
          (Ok false, after w [init_failure error; EvAppendChild (overlay_with text)])
      end
  end.

(** How [init] ends when the five steps have succeeded, leaving world [w]. *)
Definition ready (w : World) : outcome bool * World :=
  (Ok true,
   mkWorld (storage w)
     (mkApp (currentSession (app w)) (userProfile (app w)) true)
     (trace w ++ [EvConsole "log" [CStr "✅ Cognitive Mirrors initialized successfully"];
                  EvDispatch "app:ready"
                    (VObj [("session", currentSession (app w));
                           ("profile", userProfile (app w))])])).

(** The Retry button of the overlay, as the template of [showError] has
    it. *)
Definition retry_button : string :=
  "<button onclick=" +:+ dq +:+ "location.reload()" +:+ dq +:+ " class=" +:+ dq +:+ "btn-primary" +:+ dq +:+ ">
                        Retry
                    </button>".

Definition retry_offset : nat :=
  match index 0 retry_button error_markup_after with
  | Some n => n
  | None => 0
  end.

End Outcomes.

(** * Concrete hosts and worlds *)

Module Scenarios.
Import JS Host Run Api App Outcomes Reference.

(** The session of the scenario in the specification. *)
Definition u1_session : value :=
  VObj [("userId", VStr "u1"); ("puzzleType", VStr "ego_labyrinth")].

Definition conflict : response :=
  mkResponse 409 (Ok (VObj [("message", VStr "Session limit reached")])).

Definition bare_500 : response := mkResponse 500 (Ok (VObj [])).

(** A browser that cannot reach the backend. *)
Definition unplugged : Host.t := browser offline quiet.

(** A browser talking to the repository's server. *)
Definition production : Server.CognitiveServer := Server.new_CognitiveServer (Some "production").

Definition connected : Host.t :=
  browser (answering (Server.delivered (Server.health_route node production 0))) quiet.

(** A backend whose every answer is [{ healthy: true, sessionId: 's-1' }]. *)
Definition healthy_backend : Host.t :=
  browser (answering (mkResponse 200 (Ok (VObj [("healthy", VBool true);
                                                    ("sessionId", VStr "s-1")])))) quiet.

(** A healthy backend, and a tracker whose [startSession] rejects with
    [null]. *)
Definition tracker_rejects_with_null : Host.t :=
  browser (answering (mkResponse 200 (Ok (VObj [("healthy", VBool true);
                                                    ("sessionId", VStr "s-1")]))))
          (fun _ callee _ =>
             if (callee =? "startSession")%string then Err (ExnValue VNull)
             else Ok VUndefined).

(** An effect in a few words. *)
Definition describe (ev : event) : string :=
  match ev with
  | EvFetch r => "fetch " +:+ url r
  | EvConsole level _ => "console." +:+ level
  | EvSetItem key _ => "setItem " +:+ key
  | EvAppendChild n => "appendChild " +:+ className n
  | EvAddListener target _ => "listen " +:+ target
  | EvDispatch name _ => "dispatch " +:+ name
  | EvCall callee _ => "call " +:+ callee
  end.

(** The first visit: nothing is stored. *)
Definition first_id : string := "user_1700000000000_4fzyo82mv".

Definition first_profile : value := default_profile first_id "2023-11-14T22:13:20.000Z".

(** A returning visitor, whose profile has an archetype and one session. *)
Definition explorer : value :=
  VObj [("userId", VStr "user_42");
        ("archetype", VStr "explorer");
        ("sessions", VArr [VObj [("sessionId", VStr "s-1"); ("score", VNum 42%float)]]);
        ("createdAt", VStr "2023-01-01T00:00:00.000Z");
        ("preferences", VObj [("theme", VStr "light")])].

Definition returning : World :=
  fresh (<[profile_key "user_42" := stringify explorer]> (<[user_id_key := "user_42"]> ∅)).

(** A visitor whose stored blob was cut short. *)
Definition truncated : World :=
  fresh (<[profile_key "user_42" := "{" +:+ dq +:+ "userId" +:+ dq +:+ ":"]>
           (<[user_id_key := "user_42"]> ∅)).

(** A promise rejected with an error and never handled. *)
Definition connection_lost : Server.fault :=
  Server.UnhandledRejection (Server.ThrownError (Error "connection lost")) 0.

End Scenarios.

(** * More of the sources *)

(** ** js/app.js: navigation *)

Module Shell.
Import JS Host Run Api App.

Section Methods.
Variable host : Host.t.

(** [navigateTo(page, params = {})].  The calls on the page's elements and
    on [window.history] are recorded as calls; [loadPage] is not among the
    methods the sources define. *)
Definition navigateTo (page params : value) : M unit :=
  let params := match params with VUndefined => VObj [] | v => v end in
  (* Hide all pages *)
  let* _ := emit (EvCall "classList.remove" [VStr ".page"; VStr "active"]) in
  (* Show requested page *)
  let* name := lift (to_string (number_toString host) page) in
  let* n := clock in
  let* _ :=
    if element_exists host n ("page-" +:+ name)
    then emit (EvCall "classList.add" [VStr ("page-" +:+ name); VStr "active"])
    else
      (* Load page dynamically *)
      let* _ := external host "this.loadPage" [page; params] in
      ret tt in
  (* Update URL *)
  let* _ := emit (EvCall "history.pushState"
                    [VObj [("page", page); ("params", params)];
                     VStr ""; VStr ("#" +:+ name)]) in
  (* Dispatch navigation event *)
  dispatchEvent "app:navigate" (VObj [("page", page); ("params", params)]).

(** [async startPuzzle(puzzleType = 'ego_labyrinth')]; [trackEvent] is
    imported from [./analytics/tracker.js]. *)
Definition startPuzzle (puzzleType : value) : M unit :=
  let puzzleType :=
    match puzzleType with VUndefined => VStr "ego_labyrinth" | v => v end in
  let* self := this in
  let* _ :=
    if negb (isInitialized self) then
      let* _ := init host in
      ret tt
    else ret tt in
  (* Track puzzle start *)
  let* _ := external host "trackEvent"
              [VStr "puzzle_start"; VObj [("puzzleType", puzzleType)]] in
  (* Navigate to puzzle *)
  navigateTo (VStr "puzzle") (VObj [("puzzleType", puzzleType)]).

End Methods.
End Shell.

(** ** js/neural-loader.js: the configuration of the canvas animation *)

Module NeuralLoader.
Import JS.

(** The [config] literal of [createAdvancedNeuralVisualization(canvasId,
    options = {})]: five defaulted members, then [...options]. *)
Definition config (options : value) : res value :=
  let options := match options with VUndefined => VObj [] | v => v end in
  res_bind (get options "nodes") (fun nodes =>
  res_bind (get options "connections") (fun connections =>
  res_bind (get options "colors") (fun colors =>
  res_bind (get options "speed") (fun speed =>
  res_bind (get options "opacity") (fun opacity =>
  Ok (VObj (spread_into
              [("nodeCount", or_else nodes (VNum 30%float));
               ("connectionCount", or_else connections (VNum 50%float));
               ("colors", or_else colors (VArr [VStr "#2A4B8C"; VStr "#6B46C1";
                                                VStr "#0D9488"; VStr "#EA580C"]));
               ("speed", or_else speed (VNum 0.5%float));
               ("opacity", or_else opacity (VNum 0.3%float))]
              options))))))).

End NeuralLoader.

(** ** More vocabulary *)

Module MoreOutcomes.
Import JS Host Run Api App Outcomes.

(** The number of requests among some effects. *)
Definition fetches (evs : list event) : nat :=
  length (List.filter (fun ev => match ev with EvFetch _ => true | _ => false end) evs).

(** Whether a call of [callee] is among some effects. *)
Definition calls (callee : string) (evs : list event) : bool :=
  existsb (fun ev => match ev with
                     | EvCall c _ => (c =? callee)%string
                     | _ => false
                     end) evs.

(** An object literal or parsed object: no key twice. *)
Definition well_formed (fields : list (string * value)) : Prop :=
  NoDup (map fst fields).

(** The [sessionData] literal of [startNewSession], built at time [n]. *)
Definition session_data (host : Host.t) (userId : string) (n : nat) : value :=
  VObj [("userId", VStr userId);
        ("puzzleType", VStr "ego_labyrinth");
        ("resolution", VStr (number_toString host (window_innerWidth host n) +:+ "x"
                             +:+ number_toString host (window_innerHeight host n)));
        ("userAgent", VStr (navigator_userAgent host));
        ("timestamp", VNum (Date_now host n))].

(** The arguments [startNewSession] hands to the tracker. *)
Definition session_start_args (sessionId : value) : list value :=
  [VStr "session_start";
   VObj [("sessionId", sessionId); ("puzzleType", VStr "ego_labyrinth")]].

(** A computation that leaves an observation [f] of the world as it was. *)
Definition keeps {A B} (f : World -> B) (m : M A) : Prop :=
  forall w r w', m w = (r, w') -> f w' = f w.

(** Observations: a field of the application object, an item of
    localStorage. *)
Definition flag (w : World) : bool := isInitialized (app w).
Definition session (w : World) : value := currentSession (app w).
Definition item (key : string) (w : World) : option string := storage w !! key.

Definition session_id_key : string := "cognitive_session_id".

(** What [startPuzzle] does once the application is initialised or [init]
    has returned. *)
Definition track_and_navigate (host : Host.t) (puzzleType : value) : M unit :=
  let* _ := external host "trackEvent"
              [VStr "puzzle_start"; VObj [("puzzleType", puzzleType)]] in
  Shell.navigateTo host (VStr "puzzle") (VObj [("puzzleType", puzzleType)]).

(** The effects of [navigateTo], one by one. *)
Definition hide_pages : event := EvCall "classList.remove" [VStr ".page"; VStr "active"].
Definition show_page (name : string) : event :=
  EvCall "classList.add" [VStr ("page-" +:+ name); VStr "active"].
Definition load_page (page params : value) : event := EvCall "this.loadPage" [page; params].
Definition push_state (page params : value) (name : string) : event :=
  EvCall "history.pushState"
    [VObj [("page", page); ("params", params)]; VStr ""; VStr ("#" +:+ name)].
Definition navigated (page params : value) : event :=
  EvDispatch "app:navigate" (VObj [("page", page); ("params", params)]).

(** The object [trackEvent] serialises: [{ sessionId, ...eventData }]. *)
Definition event_payload (sessionId eventData : value) : value :=
  VObj (spread_into [("sessionId", sessionId)] eventData).

(** A pool of workers as the master keeps it: no id twice, every id older
    than the next one to be given out. *)
Definition pool_ok (m : Server.master) : Prop :=
  NoDup (Server.workers m)
  /\ Forall (fun id => (id < Server.next_worker m)%nat) (Server.workers m).

(** Several workers ending, one after the other. *)
Definition exits (dead : list nat) (m : Server.master) : Server.master :=
  fold_left (fun m' id => Server.worker_exited id m') dead m.

End MoreOutcomes.

(** ** More hosts and worlds *)

Module MoreScenarios.
Import JS Host Run Api App Outcomes MoreOutcomes Scenarios Reference.

(** The answer of [healthy_backend]. *)
Definition healthy_answer : value :=
  VObj [("healthy", VBool true); ("sessionId", VStr "s-1")].

(** A healthy backend, and a tracker whose [startSession] throws. *)
Definition tracker_down : Host.t :=
  browser (answering (mkResponse 200 (Ok healthy_answer)))
          (fun _ callee _ =>
             if (callee =? "startSession")%string then Err (Error "tracker down")
             else Ok VUndefined).

(** A backend that acknowledges with an empty object. *)
Definition terse_backend : Host.t := browser (answering (mkResponse 200 (Ok (VObj [])))) quiet.

(** A visitor with an identifier, a session from an earlier visit and an
    item of another application. *)
Definition revisiting : World :=
  fresh (<["theme" := "dark"]>
           (<[session_id_key := "s-old"]> (<[user_id_key := "user_42"]> ∅))).

(** An event that names a session of its own. *)
Definition forged_event : list (string * value) :=
  [("sessionId", VStr "forged"); ("type", VStr "click")].

(** Options that ask for no nodes and no movement. *)
Definition still_options : list (string * value) :=
  [("nodes", VNum 0%float); ("speed", VNum 0%float)].

End MoreScenarios.

(** * Properties of the API client *)

Module ApiFacts.
Import JS Host Run Api Outcomes.

Lemma after_nil w : after w [] = w.
Proof. destruct w. unfold after. simpl. by rewrite app_nil_r. Qed.

Lemma after_after w a b : after (after w a) b = after w (a ++ b).
Proof. unfold after. simpl. by rewrite app_assoc. Qed.

Lemma call_rethrowing host self op :
  call host self op
  = rethrowing host (request_of host self op) (fallback_message op) (log_label op).
Proof. destruct op; reflexivity. Qed.

Lemma rethrowing_run host rq fallback label w :
  rethrowing host rq fallback label w =
  match rq with
  | Err e => (Err e, after w [EvConsole "error" [CStr label; CErr e]])
  | Ok req =>
      match fetch_result host (length (trace w)) req with
      | Err e => (Err e, after w [EvFetch req; EvConsole "error" [CStr label; CErr e]])
      | Ok r =>
          if ok r then
            match json r with
            | Ok v => (Ok v, after w [EvFetch req])
            | Err e => (Err e, after w [EvFetch req; EvConsole "error" [CStr label; CErr e]])
            end
          else
            let e := error_of_body host fallback r in
            (Err e, after w [EvFetch req; EvConsole "error" [CStr label; CErr e]])
      end
  end.
Proof.
  unfold rethrowing, try_catch, fetch, bind, lift, clock, emit, console, throw, after,
    error_of_body.
  destruct rq as [req | e]; simpl; [| done].
  destruct (fetch_result host (length (trace w)) req) as [r | e]; simpl;
    [| by rewrite <- app_assoc].
  destruct (ok r); simpl.
  - destruct (json r); simpl; [done | by rewrite <- app_assoc].
  - destruct (json r) as [body | e]; simpl; [| by rewrite <- app_assoc].
    destruct (get body "message") as [m | e]; simpl; [| by rewrite <- app_assoc].
    destruct (new_Error _ _); simpl; by rewrite <- app_assoc.
Qed.

(** [trackEvent] is the same method with a handler that returns [null]. *)
Lemma trackEvent_run host self sessionId eventData w :
  trackEvent host self sessionId eventData w =
  let label := "Event tracking error:" in
  match trackEvent_request host self sessionId eventData with
  | Err e => (Ok VNull, after w [EvConsole "error" [CStr label; CErr e]])
  | Ok req =>
      match fetch_result host (length (trace w)) req with
      | Err e => (Ok VNull, after w [EvFetch req; EvConsole "error" [CStr label; CErr e]])
      | Ok r =>
          if ok r then
            match json r with
            | Ok v => (Ok v, after w [EvFetch req])
            | Err e => (Ok VNull, after w [EvFetch req; EvConsole "error" [CStr label; CErr e]])
            end
          else
            let e := error_of_body host "Failed to track event" r in
            (Ok VNull, after w [EvFetch req; EvConsole "error" [CStr label; CErr e]])
      end
  end.
Proof.
  unfold trackEvent, try_catch, fetch, bind, lift, clock, emit, console, throw, ret, after,
    error_of_body.
  destruct (trackEvent_request host self sessionId eventData) as [req | e]; simpl; [| done].
  destruct (fetch_result host (length (trace w)) req) as [r | e]; simpl;
    [| by rewrite <- app_assoc].
  destruct (ok r); simpl.
  - destruct (json r); simpl; [done | by rewrite <- app_assoc].
  - destruct (json r) as [body | e]; simpl; [| by rewrite <- app_assoc].
    destruct (get body "message") as [m | e]; simpl; [| by rewrite <- app_assoc].
    destruct (new_Error _ _); simpl; by rewrite <- app_assoc.
Qed.

Lemma checkHealth_run host self w :
  checkHealth host self w =
  let req := health_request self in
  let failed e :=
    (Ok (unhealthy (err_message e)),
     after w [EvFetch req; EvConsole "error" [CStr "Health check error:"; CErr e]]) in
  match fetch_result host (length (trace w)) req with
  | Err e => failed e
  | Ok r =>
      if ok r then
        match json r with
        | Ok v => (Ok v, after w [EvFetch req])
        | Err e => failed e
        end
      else failed (Error "Health check failed")
  end.
Proof.
  unfold checkHealth, try_catch, fetch, bind, lift, clock, emit, console, throw, ret, after,
    health_request, unhealthy.
  simpl.
  destruct (fetch_result host (length (trace w)) _) as [r | e]; simpl;
    [| by rewrite <- app_assoc].
  destruct (ok r); simpl; [| by rewrite <- app_assoc].
  destruct (json r); simpl; [done | by rewrite <- app_assoc].
Qed.

(** C1.  Whatever the session identifier, the event payload and the outcome
    of the request, [trackEvent] returns and never throws.  What it returns
    is [null], unless the payload was serialised, the request was answered
    with a 2xx status and the body parsed: then, and only then, it is the
    parsed body. *)
Theorem trackEvent_never_raises host self sessionId eventData w :
  exists v w',
    trackEvent host self sessionId eventData w = (Ok v, w')
    /\ (v = VNull
        \/ exists req r,
             trackEvent_request host self sessionId eventData = Ok req
             /\ fetch_result host (length (trace w)) req = Ok r
             /\ ok r = true /\ json r = Ok v)
    /\ (forall req r body,
          trackEvent_request host self sessionId eventData = Ok req ->
          fetch_result host (length (trace w)) req = Ok r ->
          ok r = true -> json r = Ok body -> v = body).
Proof.
  rewrite trackEvent_run. cbv zeta.
  destruct (trackEvent_request host self sessionId eventData) as [req | e] eqn:Hreq.
  2: { eexists _, _. split; [reflexivity |]. split; [by left | intros; congruence]. }
  destruct (fetch_result host (length (trace w)) req) as [r | e] eqn:Hnet.
  2: { eexists _, _. split; [reflexivity |]. split; [by left | intros; congruence]. }
  destruct (ok r) eqn:Hok.
  2: { eexists _, _. split; [reflexivity |]. split; [by left | intros; congruence]. }
  destruct (json r) as [body | e] eqn:Hbody.
  2: { eexists _, _. split; [reflexivity |]. split; [by left | intros; congruence]. }
  eexists _, _. split; [reflexivity |]. split.
  - right. by exists req, r.
  - intros req' r' body' Hr Hn Ho Hb. congruence.
Qed.

(** C4.  [checkHealth] returns and never throws.  When the request fails
    (the backend is unreachable), when the response is not ok, and when its
    body does not parse, what it returns is
    [{ healthy: false, error: message }], the message being that of the
    failure: the rejection's, ['Health check failed'], the parse error's. *)
Theorem checkHealth_never_raises host self w :
  exists v w',
    checkHealth host self w = (Ok v, w')
    /\ match fetch_result host (length (trace w)) (health_request self) with
       | Err e => v = unhealthy (err_message e)
       | Ok r =>
           if ok r then
             match json r with
             | Ok body => v = body
             | Err e => v = unhealthy (err_message e)
             end
           else v = unhealthy "Health check failed"
       end.
Proof.
  rewrite checkHealth_run. cbv zeta.
  destruct (fetch_result host (length (trace w)) (health_request self)) as [r | e].
  2: { by eexists _, _. }
  destruct (ok r); [| by eexists _, _].
  destruct (json r); by eexists _, _.
Qed.

(** C3, as the code has it.  For each of the seven operations, once its
    request is built: a network failure reaches the caller as the very error
    [fetch] rejected with; a non-2xx response always reaches the caller as a
    thrown error object.  That error is: the parse error when the body is
    not JSON; the [TypeError] of reading [message] when the body is JSON
    [null]; an [Error] whose message is the body's [message] converted to a
    string when that member is truthy (the member itself when it is a
    non-empty string, ['42'] for the number 42), or the [TypeError] of that
    conversion when it fails; and an [Error] carrying the operation's own
    fixed text ('Failed to create session', ...) when the body has no truthy
    [message]. *)
Theorem call_failure_propagates host self op w req :
  request_of host self op = Ok req ->
  (forall e, fetch_result host (length (trace w)) req = Err e ->
             fst (call host self op w) = Err e)
  /\ (forall r, fetch_result host (length (trace w)) req = Ok r -> ok r = false ->
        (exists e : js_error, fst (call host self op w) = Err e)
        /\ (forall e, json r = Err e -> fst (call host self op w) = Err e)
        /\ (forall body e, json r = Ok body -> get body "message" = Err e ->
                           fst (call host self op w) = Err e)
        /\ (json r = Ok VNull ->
            fst (call host self op w)
            = Err (TypeError "Cannot read properties of null (reading 'message')"))
        /\ (forall body s, json r = Ok body -> get body "message" = Ok (VStr s) ->
                           s <> "" ->
                           fst (call host self op w) = Err (Error s))
        /\ (forall body m, json r = Ok body -> get body "message" = Ok m ->
                           truthy m = true ->
                           fst (call host self op w)
                           = match to_string (number_toString host) m with
                             | Ok s => Err (Error s)
                             | Err e => Err e
                             end)
        /\ (forall body m, json r = Ok body -> get body "message" = Ok m ->
                           truthy m = false ->
                           fst (call host self op w) = Err (Error (fallback_message op)))).
Proof.
  intros Hreq. rewrite call_rethrowing, rethrowing_run, Hreq. split.
  - intros e ->. reflexivity.
  - intros r -> ->. cbv zeta. simpl fst. split; [by eexists |].
    unfold error_of_body. split; [| split; [| split; [| split; [| split]]]].
    + by intros e ->.
    + by intros body e -> ->.
    + by intros ->.
    + intros body s -> -> Hs. unfold or_else. simpl.
      destruct (String.eqb_spec s ""); [done |]. simpl.
      destruct s; [done | reflexivity].
    + intros body m -> -> Hm. unfold or_else. rewrite Hm.
      destruct m; try discriminate Hm; try reflexivity;
        unfold new_Error, res_bind; by destruct (to_string _ _).
    + intros body m -> -> Hm. unfold or_else. rewrite Hm. reflexivity.
Qed.

End ApiFacts.

Module ApiExamples.
Import JS Host Run Api App Outcomes Scenarios ApiFacts Reference.

Lemma call_failure_propagates_witness :
  fst (call (browser (answering conflict) quiet) api (CreateSession u1_session) (fresh ∅))
  = Err (Error "Session limit reached").
Proof.
  destruct (call_failure_propagates (browser (answering conflict) quiet) api
              (CreateSession u1_session) (fresh ∅) _ eq_refl) as [_ H].
  destruct (H conflict eq_refl eq_refl) as (_ & _ & _ & _ & Hmessage & _).
  apply (Hmessage (VObj [("message", VStr "Session limit reached")]));
    [reflexivity | reflexivity | discriminate].
Defined.

(** C3 as the specification words it fails on a 500 response whose body
    carries no message: [createSession] throws 'Failed to create session',
    which is not the HTTP-status text [handleError] would have produced for
    the same response. *)
Lemma createSession_fallback_is_not_the_http_status :
  ok bare_500 = false
  /\ fst (createSession (browser (answering bare_500) quiet) api u1_session (fresh ∅))
     = Err (Error "Failed to create session")
  /\ fst (handleError (browser (answering bare_500) quiet) bare_500 (fresh ∅))
     = Err (Error "HTTP 500")
  /\ fst (createSession (browser (answering bare_500) quiet) api u1_session (fresh ∅))
     <> Err (Error (http_status_message bare_500)).
Proof.
  split; [reflexivity |]. split; [vm_compute; reflexivity |].
  split; [vm_compute; reflexivity |].
  vm_compute. discriminate.
Qed.

End ApiExamples.

(** * Properties of the application shell *)

Module AppFacts.
Import JS Host Run Api App Outcomes ApiFacts.

Lemma item_truthy_Some (o : option string) :
  item_truthy o = true <-> exists s, o = Some s /\ s <> "".
Proof.
  destruct o as [s |]; simpl.
  - destruct (String.eqb_spec s ""); simpl; split.
    + discriminate.
    + intros (s' & [= <-] & Hs). done.
    + intros _. by exists s.
    + done.
  - split; [discriminate | intros (s & [=] & _)].
Qed.

Lemma generated_user_id_nonempty host n : generated_user_id host n <> "".
Proof. unfold generated_user_id. simpl. discriminate. Qed.

Lemma profile_key_not_user_id id : profile_key id <> user_id_key.
Proof. unfold profile_key, user_id_key. simpl. discriminate. Qed.

(** [getUserId], case by case. *)
Lemma getUserId_run host w :
  getUserId host w =
  if item_truthy (storage w !! user_id_key)
  then (Ok (default "" (storage w !! user_id_key)), w)
  else (Ok (generated_user_id host (length (trace w))),
        stored w user_id_key (generated_user_id host (length (trace w)))).
Proof.
  unfold getUserId, bind, localStorage_getItem, localStorage_setItem, clock, ret, stored.
  destruct (item_truthy (storage w !! user_id_key)); reflexivity.
Qed.

Lemma getUserId_stored host w id :
  storage w !! user_id_key = Some id -> id <> "" -> getUserId host w = (Ok id, w).
Proof.
  intros Hid Hne. rewrite getUserId_run, Hid. simpl.
  by destruct (String.eqb_spec id "").
Qed.

(** After [getUserId] the identifier it returned is the stored one, and it
    is not empty. *)
Lemma getUserId_post host w id w1 :
  getUserId host w = (Ok id, w1) ->
  storage w1 !! user_id_key = Some id /\ id <> "".
Proof.
  rewrite getUserId_run.
  destruct (item_truthy (storage w !! user_id_key)) eqn:Hitem.
  - apply item_truthy_Some in Hitem as (s & Hs & Hne).
    rewrite Hs. simpl. intros [= <- <-]. done.
  - intros [= <- <-]. simpl. split.
    + apply lookup_insert_eq.
    + apply generated_user_id_nonempty.
Qed.

(** C9.  [getUserId] always returns a non-empty identifier and leaves it
    stored.  It generates one (and persists it) only when no identifier is
    stored, the empty string counting as none; otherwise it returns the
    stored one and writes nothing.  From then on every call, whatever the
    clock and the random generator say and whatever else happened in
    between, returns that identifier and writes nothing, as long as the
    entry is still in localStorage. *)
Theorem getUserId_stable host w :
  exists id w1,
    getUserId host w = (Ok id, w1)
    /\ id <> ""
    /\ storage w1 !! user_id_key = Some id
    /\ (item_truthy (storage w !! user_id_key) = true ->
        storage w !! user_id_key = Some id /\ w1 = w)
    /\ (item_truthy (storage w !! user_id_key) = false ->
        id = generated_user_id host (length (trace w)) /\ w1 = stored w user_id_key id)
    /\ (forall host' w2,
          storage w2 !! user_id_key = Some id -> getUserId host' w2 = (Ok id, w2)).
Proof.
  destruct (getUserId host w) as [[id | e] w1] eqn:Hrun.
  2: { rewrite getUserId_run in Hrun. by destruct (item_truthy _). }
  exists id, w1. split; [reflexivity |].
  destruct (getUserId_post _ _ _ _ Hrun) as [Hstored Hne].
  split; [done |]. split; [done |].
  rewrite getUserId_run in Hrun. split; [| split].
  - intros Hitem. rewrite Hitem in Hrun. injection Hrun as <- <-.
    apply item_truthy_Some in Hitem as (s & -> & _). done.
  - intros Hitem. rewrite Hitem in Hrun. by injection Hrun as <- <-.
  - intros host' w2 Hw2. by apply getUserId_stored.
Qed.

Lemma loadUserProfile_run host w :
  loadUserProfile host w =
  match getUserId host w with
  | (Ok userId, w1) => load_for host userId w1
  | (Err e, w1) => (Err e, w1)
  end.
Proof.
  unfold loadUserProfile. unfold bind at 1.
  destruct (getUserId host w) as [[userId | e] w1]; [| reflexivity].
  unfold load_for, bind, localStorage_getItem, try_catch, lift, ret, clock, console, emit,
    localStorage_setItem, stored, after.
  destruct (storage w1 !! profile_key userId) as [blob |]; simpl.
  - destruct (String.eqb_spec blob ""); simpl.
    + destruct (JSON_stringify host _); reflexivity.
    + destruct (JSON_parse host blob); simpl; [reflexivity |].
      destruct (JSON_stringify host _); reflexivity.
  - destruct (JSON_stringify host _); reflexivity.
Qed.

(** C6.  With no profile stored under the key of the current user
    identifier, [loadUserProfile] builds the default profile ([archetype]
    is [null], [sessions] is the empty list), stores its serialisation under
    that key and returns it.  A second call returns the same object and
    writes nothing, the host's [JSON.parse] reading the serialisation back
    as the object it came from. *)
Theorem loadUserProfile_creates_default host w userId w1 item :
  getUserId host w = (Ok userId, w1) ->
  storage w1 !! profile_key userId = None ->
  JSON_stringify host
    (default_profile userId (Date_toISOString host (length (trace w1)))) = Ok item ->
  let profile := default_profile userId (Date_toISOString host (length (trace w1))) in
  let w2 := stored w1 (profile_key userId) item in
  loadUserProfile host w = (Ok profile, w2)
  /\ get profile "archetype" = Ok VNull
  /\ get profile "sessions" = Ok (VArr [])
  /\ storage w2 !! profile_key userId = Some item
  /\ (item <> "" -> JSON_parse host item = Ok profile ->
      loadUserProfile host w2 = (Ok profile, w2)).
Proof.
  intros Hid Hnone Hitem profile w2.
  split.
  { rewrite loadUserProfile_run, Hid. unfold load_for. rewrite Hnone.
    cbv zeta. by rewrite Hitem. }
  split; [reflexivity |]. split; [reflexivity |].
  split; [apply lookup_insert_eq |].
  intros Hne Hparse.
  destruct (getUserId_post _ _ _ _ Hid) as [Hstored Hid_ne].
  rewrite loadUserProfile_run, (getUserId_stored host w2 userId); [| | done].
  - unfold load_for. unfold w2 at 1. simpl. rewrite lookup_insert_eq.
    destruct (String.eqb_spec item ""); [done |]. by rewrite Hparse.
  - unfold w2. simpl. rewrite lookup_insert_ne; [done |]. apply profile_key_not_user_id.
Qed.

(** C7.  A profile stored under the key of the current user identifier as
    its serialisation, which the host's [JSON.parse] reads back as the same
    object, is what [loadUserProfile] returns.  No default profile is built
    and nothing is written: the world is the one [getUserId] left, which is
    the world before the call when the identifier was already stored. *)
Theorem loadUserProfile_returns_stored host w userId w1 profile item :
  getUserId host w = (Ok userId, w1) ->
  JSON_stringify host profile = Ok item -> item <> "" ->
  JSON_parse host item = Ok profile ->
  storage w1 !! profile_key userId = Some item ->
  loadUserProfile host w = (Ok profile, w1)
  /\ storage w1 !! profile_key userId = Some item
  /\ (item_truthy (storage w !! user_id_key) = true -> w1 = w).
Proof.
  intros Hid _ Hne Hparse Hblob.
  split; [| split; [done |]].
  - rewrite loadUserProfile_run, Hid.
    unfold load_for. rewrite Hblob.
    destruct (String.eqb_spec item ""); [done |]. by rewrite Hparse.
  - intros Hitem. rewrite getUserId_run, Hitem in Hid. by injection Hid as _ <-.
Qed.

(** C10.  When the blob stored under the key of the current user
    identifier is not valid JSON, the [SyntaxError] does not leave
    [loadUserProfile]: it goes to the console as a warning (an empty blob is
    not even handed to the parser), the default profile is built, its
    serialisation replaces the blob, and the default profile is returned. *)
Theorem loadUserProfile_replaces_corrupt host w userId w1 blob e item :
  getUserId host w = (Ok userId, w1) ->
  storage w1 !! profile_key userId = Some blob ->
  JSON_parse host blob = Err e ->
  let warned :=
    if (blob =? "")%string then w1
    else after w1 [EvConsole "warn" [CStr "Failed to parse stored profile:"; CErr e]] in
  let profile := default_profile userId (Date_toISOString host (length (trace warned))) in
  JSON_stringify host profile = Ok item ->
  loadUserProfile host w = (Ok profile, stored warned (profile_key userId) item)
  /\ storage (stored warned (profile_key userId) item) !! profile_key userId = Some item.
Proof.
  intros Hid Hblob Hparse warned profile Hitem.
  split; [| apply lookup_insert_eq].
  rewrite loadUserProfile_run, Hid. unfold load_for. rewrite Hblob.
  unfold profile, warned in *. clear profile warned.
  destruct (blob =? "")%string; [| rewrite Hparse]; cbv zeta; by rewrite Hitem.
Qed.

(** *** Initialisation *)

Lemma append_assoc (a b c : string) : (a +:+ b) +:+ c = a +:+ (b +:+ c).
Proof.
  induction a as [| x a IH]; [reflexivity |].
  change (String x ((a +:+ b) +:+ c) = String x (a +:+ (b +:+ c))). by f_equal.
Qed.

Lemma retry_in_template :
  exists lead rest, error_markup_after = lead +:+ retry_button +:+ rest.
Proof.
  exists (substring 0 retry_offset error_markup_after),
         (substring (retry_offset + String.length retry_button)
                    (String.length error_markup_after) error_markup_after).
  vm_compute. reflexivity.
Qed.

Lemma overlay_offers_retry e :
  tagName (error_overlay e) = "div"
  /\ className (error_overlay e) = "error-overlay"
  /\ exists before rest, innerHTML (error_overlay e) = before +:+ retry_button +:+ rest.
Proof.
  split; [reflexivity |]. split; [reflexivity |].
  destruct retry_in_template as (lead & rest & Hsplit).
  unfold error_overlay. cbn [innerHTML].
  set (message := if (err_message e =? "")%string then _ else _).
  rewrite Hsplit.
  exists (error_markup_before +:+ message +:+ lead), rest.
  by rewrite !append_assoc.
Qed.

(** *** Every method only adds to the trace *)

Lemma appends_ret {A} (a : A) : appends (ret a).
Proof. intros w r w' [= <- <-]. exists []. by rewrite app_nil_r. Qed.

Lemma appends_throw {A} e : appends (@throw A e).
Proof. intros w r w' [= <- <-]. exists []. by rewrite app_nil_r. Qed.

Lemma appends_lift {A} (x : res A) : appends (lift x).
Proof.
  intros w r w'. unfold lift.
  destruct x; intros [= <- <-]; exists []; by rewrite app_nil_r.
Qed.

Lemma appends_clock : appends clock.
Proof. intros w r w' [= <- <-]. exists []. by rewrite app_nil_r. Qed.

Lemma appends_this : appends this.
Proof. intros w r w' [= <- <-]. exists []. by rewrite app_nil_r. Qed.

Lemma appends_getItem key : appends (localStorage_getItem key).
Proof. intros w r w' [= <- <-]. exists []. by rewrite app_nil_r. Qed.

Lemma appends_emit ev : appends (emit ev).
Proof. intros w r w' [= <- <-]. by exists [ev]. Qed.

Lemma appends_setItem key item : appends (localStorage_setItem key item).
Proof. intros w r w' [= <- <-]. by eexists. Qed.

Lemma appends_set_currentSession v : appends (set_currentSession v).
Proof. intros w r w' [= <- <-]. exists []. by rewrite app_nil_r. Qed.

Lemma appends_set_userProfile v : appends (set_userProfile v).
Proof. intros w r w' [= <- <-]. exists []. by rewrite app_nil_r. Qed.

Lemma appends_set_isInitialized b : appends (set_isInitialized b).
Proof. intros w r w' [= <- <-]. exists []. by rewrite app_nil_r. Qed.

Lemma appends_bind {A B} (m : M A) (k : A -> M B) :
  appends m -> (forall a, appends (k a)) -> appends (bind m k).
Proof.
  intros Hm Hk w r w'. unfold bind.
  destruct (m w) as [[a | e] w1] eqn:Hrun.
  - intros Hrest. destruct (Hm _ _ _ Hrun) as [evs Hevs].
    destruct (Hk a _ _ _ Hrest) as [evs' Hevs'].
    exists (evs ++ evs')%list. by rewrite Hevs', Hevs, app_assoc.
  - intros [= <- <-]. by apply (Hm _ _ _ Hrun).
Qed.

Lemma appends_try_catch {A} (body : M A) (handler : exn -> M A) :
  appends body -> (forall e, appends (handler e)) -> appends (try_catch body handler).
Proof.
  intros Hbody Hhandler w r w'. unfold try_catch.
  destruct (body w) as [[a | e] w1] eqn:Hrun.
  - intros [= <- <-]. by apply (Hbody _ _ _ Hrun).
  - intros Hrest. destruct (Hbody _ _ _ Hrun) as [evs Hevs].
    destruct (Hhandler e _ _ _ Hrest) as [evs' Hevs'].
    exists (evs ++ evs')%list. by rewrite Hevs', Hevs, app_assoc.
Qed.

Create HintDb appends discriminated.
#[local] Hint Resolve appends_ret appends_throw appends_lift appends_clock appends_this
  appends_getItem appends_emit appends_setItem appends_set_currentSession
  appends_set_userProfile appends_set_isInitialized : appends.

(** Takes a method apart along its binds, branches and handlers. *)
Ltac appends_steps :=
  repeat first
    [ solve [auto with appends]
    | apply appends_bind
    | apply appends_try_catch
    | match goal with
      | |- forall _, _ => intro
      | |- appends (if ?c then _ else _) => destruct c
      | |- appends (match ?x with _ => _ end) => destruct x
      end ].

Lemma appends_fetch host req : appends (fetch host req).
Proof. unfold fetch. appends_steps. Qed.

Lemma appends_external host callee args : appends (external host callee args).
Proof.
  unfold external. appends_steps.
  intros w r w' [= <- <-]. exists []. by rewrite app_nil_r.
Qed.

Lemma appends_console level args : appends (console level args).
Proof. unfold console. appends_steps. Qed.

#[local] Hint Resolve appends_fetch appends_external appends_console : appends.

Lemma appends_checkHealth host self : appends (checkHealth host self).
Proof. unfold checkHealth. appends_steps. Qed.

Lemma appends_createSession host self data : appends (createSession host self data).
Proof. unfold createSession. appends_steps. Qed.

Lemma appends_getUserId host : appends (getUserId host).
Proof. unfold getUserId. appends_steps. Qed.

#[local] Hint Resolve appends_checkHealth appends_createSession appends_getUserId : appends.

Lemma appends_startNewSession host : appends (startNewSession host).
Proof. unfold startNewSession. appends_steps. Qed.

Lemma appends_loadUserProfile host : appends (loadUserProfile host).
Proof. unfold loadUserProfile. appends_steps. Qed.

Lemma appends_addListenerById host id type : appends (addListenerById host id type).
Proof. unfold addListenerById. appends_steps. Qed.

#[local] Hint Resolve appends_startNewSession appends_loadUserProfile
  appends_addListenerById : appends.

Lemma appends_initializeVisualizations host : appends (initializeVisualizations host).
Proof.
  unfold initializeVisualizations, initializeInteractiveElements, createNavigation,
    createHeroSection.
  appends_steps.
Qed.

#[local] Hint Resolve appends_initializeVisualizations : appends.

(** Each of the five steps only adds to the trace: in the trace of a run
    the effects of a step come after those of the steps before it. *)
Lemma steps_append host :
  appends (health_step host) /\ appends (session_step host)
  /\ appends (profile_step host) /\ appends (visuals_step host)
  /\ appends (tracking_step host).
Proof.
  unfold health_step, session_step, profile_step, visuals_step, tracking_step.
  repeat split; appends_steps.
Qed.

Lemma try_catch_ext {A} (body : M A) (h h' : exn -> M A) w :
  (forall e w', h e w' = h' e w') -> try_catch body h w = try_catch body h' w.
Proof. intros Hh. unfold try_catch. destruct (body w) as [[a | e] w']; [done | apply Hh]. Qed.

Lemma init_run host w :
  init host w =
  match health_step host (after w [init_banner]) with
  | (Err e, w1) => caught host e w1
  | (Ok _, w1) =>
      match session_step host w1 with
      | (Err e, w2) => caught host e w2
      | (Ok _, w2) =>
          match profile_step host w2 with
          | (Err e, w3) => caught host e w3
          | (Ok _, w3) =>
              match visuals_step host w3 with
              | (Err e, w4) => caught host e w4
              | (Ok _, w4) =>
                  match tracking_step host w4 with
                  | (Err e, w5) => caught host e w5
                  | (Ok _, w5) => ready w5
                  end
              end
          end
      end
  end.
Proof.
  assert (Hcaught : forall error w',
             (let* _ := console "error" [CStr "❌ Failed to initialize app:"; CErr error] in
              let* _ := showError host error in
              ret false) w' = caught host error w').
  { intros error w'.
    unfold caught, init_failure, showError, bind, lift, ret, console, emit, after.
    cbn [trace storage app].
    destruct (thrown_message error) as [message | e]; [| reflexivity].
    destruct (to_string _ _) as [text | e]; [| reflexivity].
    cbn [trace storage app]. by rewrite <- app_assoc. }
  unfold init. rewrite (try_catch_ext _ _ (caught host) w Hcaught).
  unfold try_catch.
  unfold health_step, session_step, profile_step, visuals_step, tracking_step.
  unfold ready, after, init_banner.
  unfold bind, lift, throw, ret, console, dispatchEvent, emit, this, set_isInitialized.
  destruct (checkHealth host api _) as [[health | e] w1]; [| reflexivity].
  destruct (get health "healthy") as [healthy | e]; [| reflexivity].
  destruct (truthy healthy); cbn [negb]; [| reflexivity].
  destruct (startNewSession host w1) as [[session | e] w1']; [| reflexivity].
  unfold set_currentSession. cbv beta iota.
  destruct (loadUserProfile host _) as [[profile | e] w2']; [| reflexivity].
  unfold set_userProfile. cbv beta iota.
  destruct (initializeVisualizations host _) as [[[] | e] w4]; [| reflexivity].
  destruct (external host "startSession" [] w4) as [[v | e] w5]; [| reflexivity].
  cbn. by rewrite <- app_assoc.
Qed.

Lemma caught_error host (e : js_error) w : caught host e w = aborted e w.
Proof.
  unfold caught, aborted, init_failure, error_overlay, overlay_with, or_else.
  cbn [thrown_message truthy].
  destruct (String.eqb_spec (err_message e) ""); reflexivity.
Qed.

Lemma overlay_with_offers_retry text :
  tagName (overlay_with text) = "div"
  /\ className (overlay_with text) = "error-overlay"
  /\ exists before rest, innerHTML (overlay_with text) = before +:+ retry_button +:+ rest.
Proof.
  split; [reflexivity |]. split; [reflexivity |].
  destruct retry_in_template as (lead & rest & Hsplit).
  unfold overlay_with. cbn [innerHTML]. rewrite Hsplit.
  exists (error_markup_before +:+ text +:+ lead), rest.
  by rewrite !append_assoc.
Qed.


(** *** The health check against the repository's own server *)

(** C2 on the code.  When the answer of the server's [/api/health] handler
    (status 200) is what the health request of [init] resolves to,
    [checkHealth] returns the handler's object as it is; that object has a
    [status] member and no [healthy] member, so [health.healthy] is
    [undefined]: [init] throws 'API server is not available', shows the
    error overlay and returns [false], and no session is ever requested. *)
Theorem init_rejects_the_server_health_answer host node self n w :
  fetch_result host (S (length (trace w))) (health_request api)
    = Ok (Server.delivered (Server.health_route node self n)) ->
  let answer := Server.sent_body (Server.health_route node self n) in
  ok (Server.delivered (Server.health_route node self n)) = true
  /\ checkHealth host api (after w [init_banner])
     = (Ok answer, after w [init_banner; EvFetch (health_request api)])
  /\ get answer "status" = Ok (VStr "healthy")
  /\ get answer "healthy" = Ok VUndefined
  /\ init host w
     = aborted (Error "API server is not available")
               (after w [init_banner; EvFetch (health_request api)])
  /\ fst (init host w) = Ok false
  /\ trace (snd (init host w))
     = (trace w
        ++ [init_banner;
            EvFetch (health_request api);
            EvConsole "error" [CStr "❌ Failed to initialize app:";
                               CErr (Error "API server is not available")];
            EvAppendChild (error_overlay (Error "API server is not available"))])%list.
Proof.
  intros Hnet answer.
  assert (Hcheck : checkHealth host api (after w [init_banner])
                   = (Ok answer, after w [init_banner; EvFetch (health_request api)])).
  { rewrite checkHealth_run. cbv zeta.
    replace (length (trace (after w [init_banner]))) with (S (length (trace w)))
      by (unfold after; cbn [trace]; rewrite length_app; cbn; lia).
    rewrite Hnet. cbn [ok Server.delivered Server.health_route status Server.sent_status
                        json Server.sent_body].
    change ((200 <=? 200) && (200 <=? 299)) with true. cbv iota.
    by rewrite after_after. }
  assert (Hinit : init host w
                  = aborted (Error "API server is not available")
                            (after w [init_banner; EvFetch (health_request api)])).
  { rewrite init_run. unfold health_step, bind. rewrite Hcheck.
    cbn [get lookup_field lift answer]. apply caught_error. }
  split; [reflexivity |]. split; [exact Hcheck |].
  split; [reflexivity |]. split; [reflexivity |].
  split; [exact Hinit |]. rewrite Hinit.
  split; [reflexivity |].
  unfold aborted, after. cbn [snd trace]. by rewrite <- app_assoc.
Qed.

End AppFacts.

(** * Properties of the server's fault handlers *)

Module ServerFacts.
Import JS Host Server.

Lemma serving_listeners :
  listeners serving
  = [("unhandledRejection", RejectionListener); ("uncaughtException", ExceptionListener)].
Proof. reflexivity. Qed.

Lemma serving_events : events serving = [SUse "notFound"; SUse "errorHandler"].
Proof. reflexivity. Qed.

Lemma serving_exception_listeners :
  listeners_for "uncaughtException" serving = [ExceptionListener].
Proof. reflexivity. Qed.

Lemma serving_rejection_listeners :
  listeners_for "unhandledRejection" serving = [RejectionListener].
Proof. reflexivity. Qed.

(** C8, as the code has it.  Once [initializeErrorHandling] has run: an
    uncaught exception is written to the console, handed to [logError], and
    ends the process with exit code 1 (7 when [logError] itself throws, the
    listener then failing before its [process.exit(1)]); an unhandled
    promise rejection is written to the console and handed to [logError],
    and when that returns the process has not exited. *)
Theorem faults_logged_exceptions_exit node :
  (forall error,
     let p := deliver node (UncaughtException error) serving in
     events p
       = (events serving
          ++ [SConsoleError [LStr "❌ Uncaught Exception:"; LErr error];
              SLogError error [("type", LStr "uncaughtException")]])%list
     /\ exit_code p = Some (match logError_result node 3 with
                            | Some _ => 7
                            | None => 1
                            end))
  /\ (forall reason promise text,
        thrown_toString node reason = Ok text ->
        logError_result node 3 = None ->
        let p := deliver node (UnhandledRejection reason promise) serving in
        events p
          = (events serving
             ++ [SConsoleError [LStr "❌ Unhandled Rejection at:"; LPromise promise;
                                LStr "reason:"; LThrown reason];
                 SLogError (Error ("Unhandled Rejection: " +:+ text))
                           [("promise", LPromise promise)]])%list
        /\ exit_code p = None).
Proof.
  split.
  - intros error. cbv zeta.
    unfold deliver, deliver_exception. rewrite serving_exception_listeners.
    unfold run_listeners, run_listener, pbind, record, logError, process_exit, pret.
    cbn -[logError_result].
    destruct (logError_result node 3); cbn; done.
  - intros reason promise text Htext Hlog. cbv zeta.
    unfold deliver. rewrite serving_rejection_listeners.
    unfold run_listeners, run_listener, pbind, record, pret.
    rewrite Htext. unfold logError. cbn -[logError_result].
    rewrite Hlog. cbn. done.
Qed.

End ServerFacts.

(** * The theorems at concrete inputs, on the reference host *)

Module AppExamples.
Import JS Host Run Api App Outcomes Scenarios ApiFacts AppFacts Reference.

Lemma init_rejects_the_server_health_answer_witness :
  init connected (fresh ∅)
  = aborted (Error "API server is not available")
            (after (fresh ∅) [init_banner; EvFetch (health_request App.api)]).
Proof.
  destruct (init_rejects_the_server_health_answer connected node production 0 (fresh ∅)
              eq_refl) as (_ & _ & _ & _ & Hinit & _).
  exact Hinit.
Defined.

(** A whole successful start, effect by effect: the five steps in order. *)
Example init_on_a_healthy_backend :
  fst (init healthy_backend (fresh ∅)) = Ok true
  /\ isInitialized (app (snd (init healthy_backend (fresh ∅)))) = true
  /\ map describe (trace (snd (init healthy_backend (fresh ∅))))
     = ["console.log";
        "fetch /api/health";
        "setItem cognitive_user_id";
        "fetch /api/cognitive/session/start";
        "setItem cognitive_session_id";
        "call trackEvent";
        "setItem cognitive_profile_user_1700000000002_4fzyo82mv";
        "call createNeuralVisualization";
        "appendChild cognitive-nav";
        "listen themeToggle"; "listen startPuzzle"; "listen [data-navigate]";
        "appendChild cognitive-hero";
        "call this.animateStats";
        "listen heroStart"; "listen watchDemo";
        "call this.createPuzzleSelector"; "call this.createUserPanel";
        "call startSession";
        "console.log";
        "dispatch app:ready"].
Proof. repeat split; vm_compute; reflexivity. Qed.

(** The same start against the repository's server stops at the health
    check. *)
Example init_on_the_repository_server :
  fst (init connected (fresh ∅)) = Ok false
  /\ map describe (trace (snd (init connected (fresh ∅))))
     = ["console.log"; "fetch /api/health"; "console.error"; "appendChild error-overlay"].
Proof. split; vm_compute; reflexivity. Qed.


Lemma loadUserProfile_creates_default_witness :
  fst (loadUserProfile unplugged (fresh ∅)) = Ok first_profile
  /\ fst (loadUserProfile unplugged (snd (loadUserProfile unplugged (fresh ∅))))
     = Ok first_profile.
Proof.
  assert (Hid : getUserId unplugged (fresh ∅)
                = (Ok first_id, stored (fresh ∅) user_id_key first_id)).
  { vm_compute. reflexivity. }
  destruct (loadUserProfile_creates_default unplugged (fresh ∅) first_id
              (stored (fresh ∅) user_id_key first_id) (stringify first_profile)
              Hid eq_refl eq_refl) as (Hfirst & _ & _ & _ & Hsecond).
  rewrite Hfirst. split; [reflexivity |].
  cbn [snd]. rewrite Hsecond; [reflexivity | discriminate | vm_compute; reflexivity].
Defined.

Lemma loadUserProfile_returns_stored_witness :
  loadUserProfile unplugged returning = (Ok explorer, returning).
Proof.
  assert (Hid : getUserId unplugged returning = (Ok "user_42", returning)).
  { vm_compute. reflexivity. }
  destruct (loadUserProfile_returns_stored unplugged returning "user_42" returning
              explorer (stringify explorer) Hid eq_refl) as [Hrun _].
  - discriminate.
  - vm_compute. reflexivity.
  - reflexivity.
  - exact Hrun.
Defined.

Lemma loadUserProfile_replaces_corrupt_witness :
  fst (loadUserProfile unplugged truncated)
  = Ok (default_profile "user_42" "2023-11-14T22:13:20.000Z")
  /\ storage (snd (loadUserProfile unplugged truncated)) !! profile_key "user_42"
     = Some (stringify (default_profile "user_42" "2023-11-14T22:13:20.000Z")).
Proof.
  destruct (loadUserProfile_replaces_corrupt unplugged truncated "user_42" truncated
              ("{" +:+ dq +:+ "userId" +:+ dq +:+ ":") SyntaxError
              (stringify (default_profile "user_42" "2023-11-14T22:13:20.000Z"))
              eq_refl eq_refl eq_refl eq_refl) as [Hrun Hstored].
  rewrite Hrun. split; [reflexivity | exact Hstored].
Defined.

Lemma getUserId_stable_witness :
  fst (getUserId unplugged (fresh ∅)) = Ok first_id
  /\ fst (getUserId connected (snd (getUserId unplugged (fresh ∅)))) = Ok first_id.
Proof.
  destruct (getUserId_stable unplugged (fresh ∅))
    as (id & w1 & Hrun & _ & Hstored & _ & Hgenerated & Hlater).
  destruct (Hgenerated eq_refl) as [-> ->].
  rewrite Hrun. split; [reflexivity |].
  cbn [snd]. rewrite (Hlater connected); [reflexivity | apply lookup_insert_eq].
Defined.

End AppExamples.

Module ServerExamples.
Import JS Host Server Scenarios ServerFacts.

Lemma faults_logged_exceptions_exit_witness :
  exit_code (deliver Reference.node (UncaughtException (Error "boom")) serving) = Some 1
  /\ exit_code (deliver Reference.node connection_lost serving) = None.
Proof.
  destruct (faults_logged_exceptions_exit Reference.node) as [Hexception Hrejection].
  split.
  - exact (proj2 (Hexception (Error "boom"))).
  - exact (proj2 (Hrejection (ThrownError (Error "connection lost")) 0%nat
                    "Error: connection lost" eq_refl eq_refl)).
Defined.

(** C8 as the specification words it fails on an unhandled rejection: the
    registered listener logs it twice over and returns, and the process has
    not exited. *)
Lemma unhandled_rejection_does_not_exit :
  events (deliver Reference.node connection_lost serving)
  = [SUse "notFound"; SUse "errorHandler";
     SConsoleError [LStr "❌ Unhandled Rejection at:"; LPromise 0; LStr "reason:";
                    LThrown (ThrownError (Error "connection lost"))];
     SLogError (Error "Unhandled Rejection: Error: connection lost")
               [("promise", LPromise 0)]]
  /\ exit_code (deliver Reference.node connection_lost serving) = None.
Proof. split; vm_compute; reflexivity. Qed.

End ServerExamples.


(** * More properties of the API client *)

Module ApiExtra.
Import JS Host Run Api Outcomes MoreOutcomes ApiFacts.

(** *** Object literals with a spread *)

Lemma lookup_set_field k k' v fields :
  lookup_field k (set_field k' v fields)
  = if (k =? k')%string then Some v else lookup_field k fields.
Proof.
  induction fields as [| [k0 v0] rest IH]; simpl.
  - by destruct (k =? k')%string.
  - destruct (String.eqb_spec k' k0) as [-> | Hne]; simpl.
    + by destruct (k =? k0)%string.
    + rewrite IH. destruct (String.eqb_spec k k0) as [-> | Hne'].
      * destruct (String.eqb_spec k0 k'); [by subst |]. done.
      * done.
Qed.

Lemma lookup_field_app k a b :
  lookup_field k (a ++ b)
  = match lookup_field k a with
    | Some v => Some v
    | None => lookup_field k b
    end.
Proof.
  induction a as [| [k0 v0] rest IH]; simpl; [done |].
  by destruct (k =? k0)%string.
Qed.

(** The later of two entries for a key is the one a spread leaves. *)
Lemma lookup_spread k entries base :
  lookup_field k (fold_left (fun acc kv => set_field (fst kv) (snd kv) acc) entries base)
  = match lookup_field k (rev entries) with
    | Some v => Some v
    | None => lookup_field k base
    end.
Proof.
  revert base. induction entries as [| [k0 v0] rest IH]; intros base; simpl; [done |].
  rewrite IH, lookup_field_app, lookup_set_field. simpl.
  destruct (lookup_field k (rev rest)); [done |].
  by destruct (k =? k0)%string.
Qed.

Lemma lookup_field_In k v fields :
  lookup_field k fields = Some v -> In (k, v) fields.
Proof.
  induction fields as [| [k0 v0] rest IH]; simpl; [done |].
  destruct (String.eqb_spec k k0) as [-> | _].
  - intros [= ->]. by left.
  - intros H. right. by apply IH.
Qed.

Lemma In_lookup_field k v fields :
  NoDup (map fst fields) -> In (k, v) fields -> lookup_field k fields = Some v.
Proof.
  induction fields as [| [k0 v0] rest IH]; simpl; [done |].
  intros Hnodup Hin. apply NoDup_cons in Hnodup as [Hfresh Hnodup].
  destruct Hin as [[= -> ->] | Hin].
  - by rewrite String.eqb_refl.
  - destruct (String.eqb_spec k k0) as [-> | _]; [| by apply IH].
    exfalso. apply Hfresh. apply list_elem_of_In, in_map_iff. by exists (k0, v).
Qed.

Lemma lookup_field_rev k fields :
  well_formed fields -> lookup_field k (rev fields) = lookup_field k fields.
Proof.
  intros Hwf.
  assert (Hrev : NoDup (map fst (rev fields))).
  { rewrite map_rev. apply NoDup_ListNoDup, List.NoDup_rev, NoDup_ListNoDup, Hwf. }
  destruct (lookup_field k fields) as [v |] eqn:Hfields.
  - apply In_lookup_field; [done |]. apply in_rev. rewrite rev_involutive.
    by apply lookup_field_In.
  - destruct (lookup_field k (rev fields)) as [v |] eqn:Hr; [| done].
    apply lookup_field_In, in_rev in Hr.
    by rewrite (In_lookup_field _ _ _ Hwf Hr) in Hfields.
Qed.

Lemma lookup_spread_object k base fields :
  well_formed fields ->
  lookup_field k (spread_into base (VObj fields))
  = match lookup_field k fields with
    | Some v => Some v
    | None => lookup_field k base
    end.
Proof.
  intros Hwf. unfold spread_into. simpl spread_entries.
  by rewrite lookup_spread, lookup_field_rev.
Qed.

(** X1.  On a 2xx response each of the seven operations ends as
    [response.json()] settles: the parsed body is returned as it is, the
    request being the only effect; a body that does not parse is logged and
    its parse error thrown. *)
Theorem call_returns_what_json_settles host self op w req r :
  request_of host self op = Ok req ->
  fetch_result host (length (trace w)) req = Ok r ->
  ok r = true ->
  match json r with
  | Ok body => call host self op w = (Ok body, after w [EvFetch req])
  | Err e =>
      call host self op w
      = (Err e, after w [EvFetch req; EvConsole "error" [CStr (log_label op); CErr e]])
  end.
Proof.
  intros Hreq Hnet Hok.
  rewrite call_rethrowing, rethrowing_run, Hreq, Hnet, Hok.
  by destruct (json r).
Qed.

Lemma fetches_after w evs n :
  (fetches evs <= n)%nat ->
  storage (after w evs) = storage w /\ app (after w evs) = app w
  /\ exists more, trace (after w evs) = (trace w ++ more)%list /\ (fetches more <= n)%nat.
Proof. intros Hn. split; [done |]. split; [done |]. by exists evs. Qed.

(** A method that rethrows changes neither localStorage nor the
    application's fields, and calls nothing but [fetch] and [console]. *)
Lemma rethrowing_frame host rq fallback label w r w' :
  rethrowing host rq fallback label w = (r, w') ->
  storage w' = storage w /\ app w' = app w
  /\ exists evs, trace w' = (trace w ++ evs)%list
                 /\ forall callee, calls callee evs = false.
Proof.
  rewrite rethrowing_run.
  destruct rq as [req | e]; [| intros [= <- <-]; repeat split; by eexists].
  destruct (fetch_result host (length (trace w)) req) as [resp | e];
    [| intros [= <- <-]; repeat split; by eexists].
  destruct (ok resp); [destruct (json resp) |];
    intros [= <- <-]; repeat split; by eexists.
Qed.

(** X2.  The client talks to the network and the console only: every
    method leaves localStorage and the application's fields as they were,
    and issues at most one request. *)
Theorem client_issues_at_most_one_request host self w :
  (forall op,
     let w' := snd (call host self op w) in
     storage w' = storage w /\ app w' = app w
     /\ exists evs, trace w' = (trace w ++ evs)%list /\ (fetches evs <= 1)%nat)
  /\ (forall sessionId eventData,
        let w' := snd (trackEvent host self sessionId eventData w) in
        storage w' = storage w /\ app w' = app w
        /\ exists evs, trace w' = (trace w ++ evs)%list /\ (fetches evs <= 1)%nat)
  /\ (let w' := snd (checkHealth host self w) in
      storage w' = storage w /\ app w' = app w
      /\ exists evs, trace w' = (trace w ++ evs)%list /\ (fetches evs <= 1)%nat).
Proof.
  split; [| split].
  - intros op. cbv zeta. rewrite call_rethrowing, rethrowing_run.
    destruct (request_of host self op) as [req | e];
      [| apply fetches_after; cbn; lia].
    destruct (fetch_result host (length (trace w)) req) as [r | e];
      [| apply fetches_after; cbn; lia].
    destruct (ok r); [destruct (json r) |]; apply fetches_after; cbn; lia.
  - intros sessionId eventData. cbv zeta. rewrite trackEvent_run. cbv zeta.
    destruct (trackEvent_request host self sessionId eventData) as [req | e];
      [| apply fetches_after; cbn; lia].
    destruct (fetch_result host (length (trace w)) req) as [r | e];
      [| apply fetches_after; cbn; lia].
    destruct (ok r); [destruct (json r) |]; apply fetches_after; cbn; lia.
  - cbv zeta. rewrite checkHealth_run. cbv zeta.
    destruct (fetch_result host (length (trace w)) (health_request self)) as [r | e];
      [| apply fetches_after; cbn; lia].
    destruct (ok r); [destruct (json r) |]; apply fetches_after; cbn; lia.
Qed.

(** X3.  [handleError] has no effect on the world.  It returns on an ok
    response and throws on every other one: an [Error] carrying the body's
    [message] when that is a non-empty string, and [HTTP <status>] when the
    body does not parse, when it is [null], and when it has no truthy
    [message]. *)
Theorem handleError_throws_unless_ok host r w :
  (ok r = true -> handleError host r w = (Ok tt, w))
  /\ (ok r = false ->
      (exists e, handleError host r w = (Err e, w))
      /\ (forall e, json r = Err e ->
            handleError host r w = (Err (Error (http_status_message r)), w))
      /\ (json r = Ok VNull ->
            handleError host r w = (Err (Error (http_status_message r)), w))
      /\ (forall body m, json r = Ok body -> get body "message" = Ok m ->
            truthy m = false ->
            handleError host r w = (Err (Error (http_status_message r)), w))
      /\ (forall body s, json r = Ok body -> get body "message" = Ok (VStr s) ->
            s <> "" ->
            handleError host r w = (Err (Error s), w))).
Proof.
  unfold handleError, try_catch, bind, lift, throw, ret.
  split; [by intros -> |]. intros ->. cbn [negb].
  split; [| split; [| split; [| split]]].
  - destruct (json r) as [body | e]; [| by eexists].
    destruct (get body "message") as [m | e]; [| by eexists].
    destruct (new_Error (number_toString host) (or_else m (VStr (http_status_message r))));
      by eexists.
  - by intros e ->.
  - by intros ->.
  - intros body m -> -> Hm. unfold or_else. by rewrite Hm.
  - intros body s -> -> Hs. unfold or_else. simpl.
    destruct (String.eqb_spec s ""); [done |]. simpl. by destruct s.
Qed.

(** X4.  The object [trackEvent] sends is the event's own members with a
    [sessionId] added in front: a [sessionId] member of the event replaces
    the argument, every member of the event is sent as it is, and an event
    that is [null], [undefined], a boolean or a number adds nothing. *)
Theorem trackEvent_payload host self sessionId fields :
  well_formed fields ->
  trackEvent_request host self sessionId (VObj fields)
  = res_bind (JSON_stringify host (event_payload sessionId (VObj fields)))
      (fun payload =>
         Ok (mkRequest (baseURL self +:+ "/cognitive/event") (Some "POST")
                       (Some (api_headers self)) (Some payload)))
  /\ get (event_payload sessionId (VObj fields)) "sessionId"
     = Ok (default sessionId (lookup_field "sessionId" fields))
  /\ (forall k v, lookup_field k fields = Some v ->
                  get (event_payload sessionId (VObj fields)) k = Ok v)
  /\ (forall k, k <> "sessionId" -> lookup_field k fields = None ->
                get (event_payload sessionId (VObj fields)) k = Ok VUndefined)
  /\ (forall b n,
        event_payload sessionId VNull = VObj [("sessionId", sessionId)]
        /\ event_payload sessionId VUndefined = VObj [("sessionId", sessionId)]
        /\ event_payload sessionId (VBool b) = VObj [("sessionId", sessionId)]
        /\ event_payload sessionId (VNum n) = VObj [("sessionId", sessionId)]).
Proof.
  intros Hwf. split; [reflexivity |].
  unfold event_payload, get.
  split; [| split; [| split]].
  - rewrite lookup_spread_object by done.
    by destruct (lookup_field "sessionId" fields).
  - intros k v Hk. rewrite lookup_spread_object by done. by rewrite Hk.
  - intros k Hne Hk. rewrite lookup_spread_object by done. rewrite Hk. simpl.
    by destruct (String.eqb_spec k "sessionId").
  - done.
Qed.

End ApiExtra.

(** * More properties of the application shell *)

Module AppExtra.
Import JS Host Run Api App Shell Outcomes MoreOutcomes ApiFacts AppFacts ApiExtra.

(** *** What a method leaves as it was *)

Section Keeps.
Context {B : Type} (f : World -> B).

Lemma keeps_ret {A} (a : A) : keeps f (ret a).
Proof. by intros w r w' [= <- <-]. Qed.

Lemma keeps_throw {A} e : keeps f (@throw A e).
Proof. by intros w r w' [= <- <-]. Qed.

Lemma keeps_lift {A} (x : res A) : keeps f (lift x).
Proof. intros w r w'. unfold lift. by destruct x; intros [= <- <-]. Qed.

Lemma keeps_clock : keeps f clock.
Proof. by intros w r w' [= <- <-]. Qed.

Lemma keeps_this : keeps f this.
Proof. by intros w r w' [= <- <-]. Qed.

Lemma keeps_getItem key : keeps f (localStorage_getItem key).
Proof. by intros w r w' [= <- <-]. Qed.

Lemma keeps_bind {A C} (m : M A) (k : A -> M C) :
  keeps f m -> (forall a, keeps f (k a)) -> keeps f (bind m k).
Proof.
  intros Hm Hk w r w'. unfold bind.
  destruct (m w) as [[a | e] w1] eqn:Hrun.
  - intros Hrest. rewrite (Hk a _ _ _ Hrest). by apply (Hm _ _ _ Hrun).
  - intros [= <- <-]. by apply (Hm _ _ _ Hrun).
Qed.

Lemma keeps_try_catch {A} (body : M A) (handler : exn -> M A) :
  keeps f body -> (forall e, keeps f (handler e)) -> keeps f (try_catch body handler).
Proof.
  intros Hbody Hhandler w r w'. unfold try_catch.
  destruct (body w) as [[a | e] w1] eqn:Hrun.
  - intros [= <- <-]. by apply (Hbody _ _ _ Hrun).
  - intros Hrest. rewrite (Hhandler e _ _ _ Hrest). by apply (Hbody _ _ _ Hrun).
Qed.

(** The observation does not look at the trace. *)
Hypothesis f_emit : forall w ev, f (after w [ev]) = f w.

Lemma keeps_emit ev : keeps f (emit ev).
Proof. intros w r w' [= <- <-]. apply f_emit. Qed.

End Keeps.

Create HintDb keeps discriminated.
#[local] Hint Resolve keeps_ret keeps_throw keeps_lift keeps_clock keeps_this keeps_getItem
  keeps_emit : keeps.

(** Takes a method apart along its binds, branches and handlers; [tac]
    settles what a write leaves of the observation. *)
Ltac keeps_steps tac :=
  repeat first
    [ solve [eauto with keeps]
    | apply keeps_bind
    | apply keeps_try_catch
    | match goal with
      | |- forall _, _ => intro
      | |- keeps _ (if ?c then _ else _) => destruct c
      | |- keeps _ (match ?x with _ => _ end) => destruct x
      | |- keeps _ (localStorage_setItem _ _) => intros ? ? ? [= <- <-]; tac
      | |- keeps _ (set_currentSession _) => intros ? ? ? [= <- <-]; tac
      | |- keeps _ (set_userProfile _) => intros ? ? ? [= <- <-]; tac
      | |- keeps _ (set_isInitialized _) => intros ? ? ? [= <- <-]; tac
      end ].

Section KeepsMethods.
Context {B : Type} (f : World -> B).
Hypothesis f_emit : forall w ev, f (after w [ev]) = f w.

Lemma keeps_fetch host req : keeps f (fetch host req).
Proof. unfold fetch. keeps_steps ltac:(idtac). Qed.

Lemma keeps_external host callee args : keeps f (external host callee args).
Proof. unfold external. keeps_steps ltac:(idtac). by intros w r w' [= <- <-]. Qed.

Lemma keeps_console level args : keeps f (console level args).
Proof. unfold console. keeps_steps ltac:(idtac). Qed.

Hint Resolve keeps_fetch keeps_external keeps_console : keeps.

Lemma keeps_checkHealth host self : keeps f (checkHealth host self).
Proof. unfold checkHealth. keeps_steps ltac:(idtac). Qed.

Lemma keeps_createSession host self data : keeps f (createSession host self data).
Proof. unfold createSession. keeps_steps ltac:(idtac). Qed.

Lemma keeps_addListenerById host id type : keeps f (addListenerById host id type).
Proof. unfold addListenerById. keeps_steps ltac:(idtac). Qed.

Hint Resolve keeps_checkHealth keeps_createSession keeps_addListenerById : keeps.

Lemma keeps_initializeVisualizations host : keeps f (initializeVisualizations host).
Proof.
  unfold initializeVisualizations, initializeInteractiveElements, createNavigation,
    createHeroSection.
  keeps_steps ltac:(idtac).
Qed.

Lemma keeps_health_step host : keeps f (health_step host).
Proof. unfold health_step. keeps_steps ltac:(idtac). Qed.

Lemma keeps_tracking_step host : keeps f (tracking_step host).
Proof. unfold tracking_step. keeps_steps ltac:(idtac). Qed.

End KeepsMethods.

#[local] Hint Resolve keeps_fetch keeps_external keeps_console keeps_checkHealth
  keeps_createSession keeps_addListenerById keeps_initializeVisualizations
  keeps_health_step keeps_tracking_step : keeps.

Lemma flag_emit w ev : flag (after w [ev]) = flag w.
Proof. reflexivity. Qed.

Lemma session_emit w ev : session (after w [ev]) = session w.
Proof. reflexivity. Qed.

Lemma item_emit key w ev : item key (after w [ev]) = item key w.
Proof. reflexivity. Qed.

#[local] Hint Resolve flag_emit session_emit item_emit : keeps.

Lemma keeps_flag_getUserId host : keeps flag (getUserId host).
Proof. unfold getUserId. keeps_steps ltac:(reflexivity). Qed.

Lemma keeps_session_getUserId host : keeps session (getUserId host).
Proof. unfold getUserId. keeps_steps ltac:(reflexivity). Qed.

#[local] Hint Resolve keeps_flag_getUserId keeps_session_getUserId : keeps.

Lemma keeps_flag_session_step host : keeps flag (session_step host).
Proof. unfold session_step, startNewSession. keeps_steps ltac:(reflexivity). Qed.

Lemma keeps_flag_profile_step host : keeps flag (profile_step host).
Proof. unfold profile_step, loadUserProfile. keeps_steps ltac:(reflexivity). Qed.

Lemma keeps_session_profile_step host : keeps session (profile_step host).
Proof. unfold profile_step, loadUserProfile. keeps_steps ltac:(reflexivity). Qed.

(** *** [init] and the fields of the application *)

(** The handler of [init] writes neither to localStorage nor to the
    application's fields, however it ends. *)
Lemma caught_frame host error w :
  storage (snd (caught host error w)) = storage w
  /\ app (snd (caught host error w)) = app w.
Proof.
  unfold caught. destruct (thrown_message error); [| done].
  by destruct (to_string _ _).
Qed.

(** What the handler of [init] throws, when it throws, is an error object:
    the [TypeError] raised in [showError]. *)
Lemma caught_throws_errors host error w t :
  fst (caught host error w) = Err t -> exists e : js_error, t = ExnError e.
Proof.
  unfold caught. destruct (thrown_message error) as [message | e].
  - destruct (to_string _ _) as [text | e]; [discriminate |].
    intros [= <-]. by exists e.
  - intros [= <-]. by exists e.
Qed.

Lemma caught_not_true host error w : fst (caught host error w) <> Ok true.
Proof.
  unfold caught. destruct (thrown_message error); [| done].
  by destruct (to_string _ _).
Qed.


Lemma session_id_key_not_user_id : user_id_key <> session_id_key.
Proof. unfold user_id_key, session_id_key. discriminate. Qed.

Lemma profile_key_not_session_id id : profile_key id <> session_id_key.
Proof. unfold profile_key, session_id_key. discriminate. Qed.

(** Settles what a write leaves of the stored session identifier. *)
Ltac other_key :=
  first
    [ reflexivity
    | unfold item, stored; cbn [storage];
      apply lookup_insert_ne;
      first [ apply session_id_key_not_user_id | apply profile_key_not_session_id ] ].

Lemma keeps_session_id_getUserId host : keeps (item session_id_key) (getUserId host).
Proof. unfold getUserId. keeps_steps ltac:(other_key). Qed.

#[local] Hint Resolve keeps_session_id_getUserId : keeps.

Lemma keeps_session_id_profile_step host : keeps (item session_id_key) (profile_step host).
Proof. unfold profile_step, loadUserProfile. keeps_steps ltac:(other_key). Qed.

(** X6.  Once the session step has succeeded, the session it created stays
    behind whatever happens next: [this.currentSession] and the stored
    session identifier are the same at the end of [init], also when a later
    step threw and [init] returned [false]. *)
Theorem init_leaves_the_session_behind host w w1 created w2 :
  health_step host (after w [init_banner]) = (Ok tt, w1) ->
  startNewSession host w1 = (Ok created, w2) ->
  currentSession (app (snd (init host w))) = created
  /\ storage (snd (init host w)) !! session_id_key = storage w2 !! session_id_key.
Proof.
  intros Hhealth Hsession.
  set (w3 := mkWorld (storage w2)
               (mkApp created (userProfile (app w2)) (isInitialized (app w2))) (trace w2)).
  assert (Hinit : init host w =
    match profile_step host w3 with
    | (Err e, w4) => caught host e w4
    | (Ok _, w4) =>
        match visuals_step host w4 with
        | (Err e, w5) => caught host e w5
        | (Ok _, w5) =>
            match tracking_step host w5 with
            | (Err e, w6) => caught host e w6
            | (Ok _, w6) => ready w6
            end
        end
    end).
  { rewrite init_run, Hhealth. unfold session_step, bind. by rewrite Hsession. }
  rewrite Hinit. clear Hinit.
  assert (Hs : session w3 = created) by reflexivity.
  assert (Hi : item session_id_key w3 = item session_id_key w2) by reflexivity.
  assert (Hcaught : forall error w',
             session w' = created -> item session_id_key w' = item session_id_key w2 ->
             currentSession (app (snd (caught host error w'))) = created
             /\ storage (snd (caught host error w')) !! session_id_key
                = storage w2 !! session_id_key).
  { intros error w' Hs' Hi'. destruct (caught_frame host error w') as [-> ->]. done. }
  destruct (profile_step host w3) as [[[] | e] w4] eqn:H3.
  2: { pose proof (keeps_session_profile_step _ _ _ _ H3).
       pose proof (keeps_session_id_profile_step _ _ _ _ H3).
       apply Hcaught; congruence. }
  pose proof (keeps_session_profile_step _ _ _ _ H3) as Hs4.
  pose proof (keeps_session_id_profile_step _ _ _ _ H3) as Hi4.
  destruct (visuals_step host w4) as [[[] | e] w5] eqn:H4.
  2: { pose proof (keeps_initializeVisualizations session session_emit _ _ _ _ H4).
       pose proof (keeps_initializeVisualizations (item session_id_key)
                     (item_emit session_id_key) _ _ _ _ H4).
       apply Hcaught; congruence. }
  pose proof (keeps_initializeVisualizations session session_emit _ _ _ _ H4) as Hs5.
  pose proof (keeps_initializeVisualizations (item session_id_key)
                (item_emit session_id_key) _ _ _ _ H4) as Hi5.
  destruct (tracking_step host w5) as [[[] | e] w6] eqn:H5;
    pose proof (keeps_tracking_step session session_emit _ _ _ _ H5);
    pose proof (keeps_tracking_step (item session_id_key)
                  (item_emit session_id_key) _ _ _ _ H5).
  - unfold ready, session, item in *. cbn. split; congruence.
  - apply Hcaught; congruence.
Qed.

(** *** [startNewSession] *)

Lemma startNewSession_run host w :
  startNewSession host w =
  match getUserId host w with
  | (Err e, w1) => (Err e, w1)
  | (Ok userId, w1) =>
      match createSession host api (session_data host userId (length (trace w1))) w1 with
      | (Err e, w2) => (Err e, w2)
      | (Ok created, w2) =>
          match get created "sessionId" with
          | Err e => (Err e, w2)
          | Ok sessionId =>
              match to_string (number_toString host) sessionId with
              | Err e => (Err e, w2)
              | Ok text =>
                  let w3 := stored w2 session_id_key text in
                  (match external_result host (length (trace w3)) "trackEvent"
                           (session_start_args sessionId) with
                   | Ok _ => Ok created
                   | Err e => Err e
                   end,
                   after w3 [EvCall "trackEvent" (session_start_args sessionId)])
              end
          end
      end
  end.
Proof.
  unfold startNewSession. unfold bind at 1.
  destruct (getUserId host w) as [[userId | e] w1]; [| reflexivity].
  unfold bind at 1. unfold clock at 1. cbv beta iota. unfold bind at 1.
  fold (session_data host userId (length (trace w1))).
  destruct (createSession host api _ w1) as [[created | e] w2]; [| reflexivity].
  unfold bind, lift, external, localStorage_setItem, clock, emit, ret, stored, after.
  destruct (get created "sessionId") as [sessionId | e]; [| reflexivity].
  destruct (to_string _ sessionId) as [text | e]; [| reflexivity].
  cbn. by destruct (external_result host _ _ _).
Qed.

(** X7.  When the server's answer parses, [startNewSession] stores the text
    of its [sessionId] member under [cognitive_session_id], tells the
    tracker and returns the answer as it is.  There is no check that the
    member exists: for an answer without [sessionId] the text stored is
    ['undefined'].  An error thrown by the tracker is thrown on, the
    identifier already stored. *)
Theorem startNewSession_stores_the_session_id host w userId w1 created w2 sessionId text :
  getUserId host w = (Ok userId, w1) ->
  createSession host api (session_data host userId (length (trace w1))) w1
    = (Ok created, w2) ->
  get created "sessionId" = Ok sessionId ->
  to_string (number_toString host) sessionId = Ok text ->
  let w3 := stored w2 session_id_key text in
  startNewSession host w
  = (match external_result host (length (trace w3)) "trackEvent"
             (session_start_args sessionId) with
     | Ok _ => Ok created
     | Err e => Err e
     end,
     after w3 [EvCall "trackEvent" (session_start_args sessionId)])
  /\ storage (snd (startNewSession host w)) !! session_id_key = Some text
  /\ (sessionId = VUndefined -> text = "undefined").
Proof.
  intros Hid Hcreate Hget Htext w3.
  rewrite startNewSession_run, Hid, Hcreate, Hget, Htext. cbv zeta.
  split; [reflexivity |]. split.
  - cbn. apply lookup_insert_eq.
  - intros ->. by injection Htext as <-.
Qed.

Lemma createSession_frame host self data w r w' :
  createSession host self data w = (r, w') ->
  storage w' = storage w /\ app w' = app w
  /\ exists evs, trace w' = (trace w ++ evs)%list
                 /\ forall callee, calls callee evs = false.
Proof.
  change (createSession host self data) with (call host self (CreateSession data)).
  rewrite call_rethrowing. apply rethrowing_frame.
Qed.

Lemma getUserId_frame host w r w1 :
  getUserId host w = (r, w1) ->
  storage w1 !! session_id_key = storage w !! session_id_key
  /\ exists evs, trace w1 = (trace w ++ evs)%list
                 /\ forall callee, calls callee evs = false.
Proof.
  rewrite getUserId_run.
  destruct (item_truthy _); intros [= <- <-].
  - split; [done |]. exists []. by rewrite app_nil_r.
  - split.
    + cbn. apply lookup_insert_ne, session_id_key_not_user_id.
    + by eexists.
Qed.

Lemma calls_app callee a b : calls callee (a ++ b) = calls callee a || calls callee b.
Proof. apply existsb_app. Qed.

(** X8.  When [createSession] throws, and when the server's answer is
    [null], [startNewSession] throws (the error of [createSession], a
    [TypeError]); the session identifier in localStorage is the one that was
    there and the tracker has not been called. *)
Theorem startNewSession_failure_stores_nothing host w userId w1 :
  getUserId host w = (Ok userId, w1) ->
  forall outcome w2,
    createSession host api (session_data host userId (length (trace w1))) w1
      = (outcome, w2) ->
    (outcome = Ok VNull \/ exists e, outcome = Err e) ->
    (exists e, startNewSession host w = (Err e, w2)
               /\ (outcome = Err e \/ outcome = Ok VNull))
    /\ storage w2 !! session_id_key = storage w !! session_id_key
    /\ exists evs, trace w2 = (trace w ++ evs)%list /\ calls "trackEvent" evs = false.
Proof.
  intros Hid outcome w2 Hcreate Hfail.
  destruct (getUserId_frame _ _ _ _ Hid) as (Hkey & evs & Hevs & Hcalls).
  destruct (createSession_frame _ _ _ _ _ _ Hcreate) as (Hst & _ & evs' & Hevs' & Hcalls').
  split; [| split].
  - rewrite startNewSession_run, Hid, Hcreate.
    destruct Hfail as [-> | [e ->]].
    + eexists. split; [reflexivity | by right].
    + exists e. split; [reflexivity | by left].
  - by rewrite Hst.
  - exists (evs ++ evs')%list. split.
    + by rewrite Hevs', Hevs, app_assoc.
    + by rewrite calls_app, Hcalls, Hcalls'.
Qed.

(** *** The identifier [getUserId] generates *)

Lemma substring_length_le n m s : (String.length (substring n m s) <= m)%nat.
Proof.
  revert n m. induction s as [| c s IH]; intros [| n] [| m]; simpl; try lia.
  - specialize (IH 0%nat m). lia.
  - apply IH.
  - apply IH.
Qed.

Lemma substring_beyond n m s : (String.length s <= n)%nat -> substring n m s = "".
Proof.
  revert n m. induction s as [| c s IH]; intros [| n] [| m]; simpl; try done; try lia.
  - intros H. apply IH. lia.
  - intros H. apply IH. lia.
Qed.

(** X9.  With no identifier stored, [getUserId] returns and stores
    [user_<clock>_<suffix>], the suffix being the characters of
    [Math.random().toString(36)] after its first two, nine at most; when
    that text has two characters or fewer (as ['0'] has) the suffix is
    empty. *)
Theorem getUserId_generates host w :
  item_truthy (storage w !! user_id_key) = false ->
  let random := Math_random_base36 host (length (trace w)) in
  exists suffix,
    fst (getUserId host w)
    = Ok ("user_" +:+ number_toString host (Date_now host (length (trace w)))
          +:+ "_" +:+ suffix)
    /\ storage (snd (getUserId host w)) !! user_id_key
       = Some ("user_" +:+ number_toString host (Date_now host (length (trace w)))
               +:+ "_" +:+ suffix)
    /\ suffix = substring 2 9 random
    /\ (String.length suffix <= 9)%nat
    /\ ((String.length random <= 2)%nat -> suffix = "").
Proof.
  intros Hnone random. exists (substring 2 9 random).
  rewrite getUserId_run, Hnone. cbn [fst snd].
  split; [reflexivity |]. split; [apply lookup_insert_eq |].
  split; [reflexivity |]. split; [apply substring_length_le |].
  apply substring_beyond.
Qed.

(** *** What [loadUserProfile] writes *)

(** X10.  [loadUserProfile] writes to two items of localStorage at most,
    the user identifier and the profile of that user: every other item, and
    every field of the application object, is as it was. *)
Theorem loadUserProfile_writes_two_items_at_most host w userId w1 :
  getUserId host w = (Ok userId, w1) ->
  app (snd (loadUserProfile host w)) = app w
  /\ forall key, key <> user_id_key -> key <> profile_key userId ->
       storage (snd (loadUserProfile host w)) !! key = storage w !! key.
Proof.
  intros Hid. rewrite loadUserProfile_run, Hid.
  assert (H1 : app w1 = app w
               /\ forall key, key <> user_id_key -> storage w1 !! key = storage w !! key).
  { rewrite getUserId_run in Hid. destruct (item_truthy _); injection Hid as _ <-.
    - done.
    - split; [done |]. intros key Hkey. cbn. by apply lookup_insert_ne. }
  destruct H1 as [Happ Hother].
  assert (Hcreate : forall w',
    app w' = app w1 -> storage w' = storage w1 ->
    let outcome : result exn value * World :=
      match JSON_stringify host
              (default_profile userId (Date_toISOString host (length (trace w')))) with
      | Ok blob =>
          (Ok (default_profile userId (Date_toISOString host (length (trace w')))),
           stored w' (profile_key userId) blob)
      | Err e => (Err e, w')
      end in
    app (snd outcome) = app w
    /\ forall key, key <> user_id_key -> key <> profile_key userId ->
         storage (snd outcome) !! key = storage w !! key).
  { intros w' Ha Hs. cbv zeta. destruct (JSON_stringify host _); cbn [snd].
    - split; [cbn; congruence |]. intros key H H'. cbn.
      rewrite lookup_insert_ne by done. rewrite Hs. by apply Hother.
    - split; [congruence |]. intros key H H'. rewrite Hs. by apply Hother. }
  unfold load_for. cbv zeta.
  destruct (storage w1 !! profile_key userId) as [blob |].
  - destruct (blob =? "")%string.
    + by apply Hcreate.
    + destruct (JSON_parse host blob).
      * cbn. split; [done |]. intros key H _. by apply Hother.
      * by apply Hcreate.
  - by apply Hcreate.
Qed.

(** *** Navigation *)

(** X11.  [navigateTo] hides the pages, then shows the page asked for when
    the document has it, and asks [loadPage] for it otherwise; it then
    pushes [#<page>] on the history and dispatches [app:navigate], in that
    order.  When [loadPage] throws, the error leaves [navigateTo] with the
    pages hidden, the history not pushed and no event dispatched. *)
Theorem navigateTo_outcomes host page params name w :
  to_string (number_toString host) page = Ok name ->
  let params' := match params with VUndefined => VObj [] | v => v end in
  navigateTo host page params w =
    if element_exists host (S (length (trace w))) ("page-" +:+ name)
    then (Ok tt, after w [hide_pages; show_page name;
                          push_state page params' name; navigated page params'])
    else
      match external_result host (S (length (trace w))) "this.loadPage" [page; params'] with
      | Ok _ => (Ok tt, after w [hide_pages; load_page page params';
                                 push_state page params' name; navigated page params'])
      | Err e => (Err e, after w [hide_pages; load_page page params'])
      end.
Proof.
  intros Hname params'.
  unfold navigateTo. fold params'.
  unfold dispatchEvent, external.
  unfold bind, emit, lift, clock, ret, after.
  unfold hide_pages, show_page, load_page, push_state, navigated.
  rewrite Hname. cbn [trace storage app].
  rewrite !length_app. cbn [length].
  replace (length (trace w) + 1)%nat with (S (length (trace w))) by lia.
  destruct (element_exists host _ _).
  - cbn. by rewrite <- !app_assoc.
  - cbv beta. cbn [trace]. rewrite !length_app. cbn [length].
    replace (length (trace w) + 1)%nat with (S (length (trace w))) by lia.
    destruct (external_result host _ _ _); cbn; by rewrite <- !app_assoc.
Qed.

(** X12.  [startPuzzle] runs [init] when the application is not
    initialised and only then.  What [init] returned is not looked at: also
    after [init] returned [false], [startPuzzle] tells the tracker and
    navigates to the puzzle page.  When [init] throws, [startPuzzle] throws
    what [init] threw, and neither tells the tracker nor navigates. *)
Theorem startPuzzle_goes_on_whatever_init_returned host puzzleType w :
  let kind := match puzzleType with VUndefined => VStr "ego_labyrinth" | v => v end in
  (isInitialized (app w) = true ->
   startPuzzle host puzzleType w = track_and_navigate host kind w)
  /\ (isInitialized (app w) = false ->
      startPuzzle host puzzleType w
      = match init host w with
        | (Ok _, w1) => track_and_navigate host kind w1
        | (Err thrown, w1) => (Err thrown, w1)
        end).
Proof.
  intros kind. unfold startPuzzle. fold kind. split.
  - intros Hflag. unfold bind at 1. unfold this at 1. cbv beta iota.
    rewrite Hflag. reflexivity.
  - intros Hflag.
    unfold bind at 1. unfold this at 1. cbv beta iota. rewrite Hflag. cbn [negb].
    unfold bind at 1. unfold bind at 1.
    destruct (init host w) as [[b | thrown] w1]; reflexivity.
Qed.

End AppExtra.

(** * More properties of the server *)

Module ServerExtra.
Import JS Host Server MoreOutcomes ServerFacts.

(** *** The cluster master *)

Lemma fork_fields m :
  workers (cluster_fork m) = (workers m ++ [next_worker m])%list
  /\ next_worker (cluster_fork m) = S (next_worker m)
  /\ master_log (cluster_fork m) = master_log m.
Proof. done. Qed.

Lemma iter_fork k m :
  workers (Nat.iter k cluster_fork m) = (workers m ++ seq (next_worker m) k)%list
  /\ next_worker (Nat.iter k cluster_fork m) = (next_worker m + k)%nat
  /\ master_log (Nat.iter k cluster_fork m) = master_log m.
Proof.
  induction k as [| k (IHw & IHn & IHl)].
  - simpl. split; [by rewrite app_nil_r | split; [lia | done]].
  - change (Nat.iter (S k) cluster_fork m) with (cluster_fork (Nat.iter k cluster_fork m)).
    destruct (fork_fields (Nat.iter k cluster_fork m)) as (-> & -> & ->).
    rewrite IHw, IHn, IHl. split; [| split; [lia | done]].
    by rewrite <- app_assoc, seq_S.
Qed.

Lemma start_master_workers numCPUs :
  workers (start_master numCPUs) = seq 1 (Nat.min numCPUs 4)
  /\ next_worker (start_master numCPUs) = S (Nat.min numCPUs 4).
Proof.
  unfold start_master.
  destruct (iter_fork (Nat.min numCPUs 4) (mkMaster [] 1 [MRunning; MStarting numCPUs]))
    as (Hw & Hn & _).
  cbn [workers next_worker] in Hw, Hn. cbn [app] in Hw.
  split; [exact Hw | rewrite Hn; lia].
Qed.

Lemma pool_ok_start numCPUs : pool_ok (start_master numCPUs).
Proof.
  destruct (start_master_workers numCPUs) as [Hw Hn].
  unfold pool_ok. rewrite Hw, Hn. split.
  - apply NoDup_ListNoDup, seq_NoDup.
  - apply Forall_forall. intros id Hin. apply list_elem_of_In, in_seq in Hin. lia.
Qed.

(** X13.  The master starts one worker for each CPU and four at most:
    workers 1 to [min numCPUs 4], none when the host reports no CPU. *)
Theorem start_master_forks_four_at_most numCPUs :
  workers (start_master numCPUs) = seq 1 (Nat.min numCPUs 4)
  /\ (length (workers (start_master numCPUs)) <= 4)%nat
  /\ next_worker (start_master numCPUs) = S (Nat.min numCPUs 4)
  /\ pool_ok (start_master numCPUs).
Proof.
  destruct (start_master_workers numCPUs) as [Hw Hn].
  split; [exact Hw |]. split; [rewrite Hw, length_seq; lia |].
  split; [exact Hn | apply pool_ok_start].
Qed.

Lemma workers_worker_exited id m :
  workers (worker_exited id m)
  = (List.filter (fun x => negb (Nat.eqb x id)) (workers m) ++ [next_worker m])%list
  /\ next_worker (worker_exited id m) = S (next_worker m).
Proof. done. Qed.

Lemma filter_others_length id (l : list nat) :
  NoDup l -> In id l ->
  S (length (List.filter (fun x => negb (Nat.eqb x id)) l)) = length l.
Proof.
  induction l as [| x l IH]; [done |].
  intros Hnodup Hin. apply NoDup_cons in Hnodup as [Hfresh Hnodup]. simpl.
  destruct (Nat.eqb_spec x id) as [-> | Hne]; simpl.
  - f_equal. clear IH Hin Hnodup.
    induction l as [| y l IH]; [done |]. simpl.
    destruct (Nat.eqb_spec y id) as [-> | _]; simpl.
    + exfalso. apply Hfresh. by left.
    + f_equal. apply IH. intros H. apply Hfresh. by right.
  - f_equal. apply IH; [done |]. by destruct Hin.
Qed.

Lemma pool_ok_worker_exited id m : pool_ok m -> pool_ok (worker_exited id m).
Proof.
  intros [Hnodup Hbelow]. unfold pool_ok.
  destruct (workers_worker_exited id m) as [-> ->]. split.
  - apply NoDup_app. split; [| split].
    + apply NoDup_ListNoDup, List.NoDup_filter, NoDup_ListNoDup, Hnodup.
    + intros x Hx Hnext. apply list_elem_of_In, filter_In in Hx as [Hx _].
      apply list_elem_of_In in Hx.
      rewrite Forall_forall in Hbelow. specialize (Hbelow _ Hx).
      apply list_elem_of_singleton in Hnext. lia.
    + apply NoDup_singleton.
  - apply Forall_app. split.
    + apply Forall_forall. intros x Hx. apply list_elem_of_In, filter_In in Hx as [Hx _].
      apply list_elem_of_In in Hx.
      rewrite Forall_forall in Hbelow. specialize (Hbelow _ Hx). lia.
    + apply Forall_singleton. lia.
Qed.

Lemma exited_stays_out id dead m :
  (id < next_worker m)%nat -> ~ In id (workers m) ->
  ~ In id (workers (exits dead m)) /\ (id < next_worker (exits dead m))%nat.
Proof.
  revert m. induction dead as [| d dead IH]; intros m Hbelow Hout; [done |].
  simpl. apply IH.
  - destruct (workers_worker_exited d m) as [_ ->]. lia.
  - destruct (workers_worker_exited d m) as [-> _].
    rewrite in_app_iff, filter_In. intros [[Hin _] | [Heq | []]]; [done | lia].
Qed.

(** X14.  When a worker of the pool has exited the master forks one
    worker: the pool has the size it had, its ids are still distinct, the
    worker that exited is not in it, and no exit after that brings its id
    back. *)
Theorem worker_exited_keeps_the_pool id m :
  pool_ok m -> In id (workers m) ->
  pool_ok (worker_exited id m)
  /\ length (workers (worker_exited id m)) = length (workers m)
  /\ In (next_worker m) (workers (worker_exited id m))
  /\ forall dead, ~ In id (workers (exits dead (worker_exited id m))).
Proof.
  intros Hok Hin. pose proof Hok as [Hnodup Hbelow].
  split; [by apply pool_ok_worker_exited |].
  destruct (workers_worker_exited id m) as [Hw Hn].
  split; [| split].
  - rewrite Hw, length_app. cbn [length].
    rewrite <- (filter_others_length id (workers m)) by done. lia.
  - rewrite Hw, in_app_iff. right. by left.
  - intros dead. apply exited_stays_out.
    + rewrite Hn. rewrite Forall_forall in Hbelow.
      apply list_elem_of_In in Hin. specialize (Hbelow _ Hin). lia.
    + rewrite Hw, in_app_iff, filter_In. intros [[_ Hneq] | [Heq | []]].
      * by rewrite Nat.eqb_refl in Hneq.
      * rewrite Forall_forall in Hbelow.
        apply list_elem_of_In in Hin. specialize (Hbelow _ Hin). lia.
Qed.

(** *** An unhandled rejection whose logging fails *)

(** X15.  Once [initializeErrorHandling] has run, an unhandled rejection
    is written to the console first, whatever it is.  The process goes on
    exactly when the reason could be printed and [logError] returned;
    otherwise what the listener threw is an uncaught exception, and the
    process exits with code 1 or 7. *)
Theorem unhandled_rejection_exits_when_logging_throws node reason promise :
  let p := deliver node (UnhandledRejection reason promise) serving in
  (exists rest,
     events p
     = (events serving
        ++ SConsoleError [LStr "❌ Unhandled Rejection at:"; LPromise promise;
                          LStr "reason:"; LThrown reason] :: rest)%list)
  /\ (exit_code p = None
      <-> (exists text, thrown_toString node reason = Ok text)
          /\ logError_result node 3 = None)
  /\ (exit_code p = None \/ exit_code p = Some 1 \/ exit_code p = Some 7).
Proof.
  cbv zeta. unfold deliver. rewrite serving_rejection_listeners.
  unfold run_listeners, run_listener, pbind, record, pret.
  destruct (thrown_toString node reason) as [text | e] eqn:Htext.
  - unfold logError. cbn -[logError_result].
    destruct (logError_result node 3) as [thrown_by_logger |] eqn:Hlog.
    + unfold deliver_exception, listeners_for. cbn -[logError_result].
      unfold logError, pbind. cbn -[logError_result].
      destruct (logError_result node 5); cbn.
      * split; [by eexists |]. split; [| by right; right].
        split; [done | by intros [_ [=]]].
      * split; [by eexists |]. split; [| by right; left].
        split; [done | by intros [_ [=]]].
    + cbn. split; [by eexists |]. split; [| by left].
      split; [by eauto | done].
  - cbn -[logError_result].
    unfold deliver_exception, listeners_for. cbn -[logError_result].
    unfold logError, pbind. cbn -[logError_result].
    destruct (logError_result node 4); cbn.
    + split; [by eexists |]. split; [| by right; right].
      split; [done | by intros [[text [=]] _]].
    + split; [by eexists |]. split; [| by right; left].
      split; [done | by intros [[text [=]] _]].
Qed.

End ServerExtra.

(** * Properties of the animation's configuration *)

Module NeuralExtra.
Import JS NeuralLoader MoreOutcomes ApiExtra.

(** X16.  In the configuration of the animation every member of [options]
    is copied last and wins, falsy or not.  [speed], [opacity] and [colors]
    are therefore what [options] says when it names them ([{ speed: 0 }]
    gives speed 0, the [||] before it notwithstanding) and 0.5, 0.3 and the
    four-colour palette otherwise.  [nodeCount] and [connectionCount] are
    read from [options.nodes] and [options.connections] through [||], so a
    falsy one gives the default: [{ nodes: 0 }] asks for 30 nodes, and only
    [{ nodeCount: 0 }] for none. *)
Theorem config_defaults fields :
  well_formed fields ->
  exists members,
    config (VObj fields) = Ok (VObj members)
    /\ (forall k v, lookup_field k fields = Some v -> lookup_field k members = Some v)
    /\ (lookup_field "nodeCount" fields = None ->
        lookup_field "nodeCount" members
        = Some (or_else (default VUndefined (lookup_field "nodes" fields))
                        (VNum 30%float)))
    /\ (lookup_field "connectionCount" fields = None ->
        lookup_field "connectionCount" members
        = Some (or_else (default VUndefined (lookup_field "connections" fields))
                        (VNum 50%float)))
    /\ (lookup_field "speed" fields = None ->
        lookup_field "speed" members = Some (VNum 0.5%float))
    /\ (lookup_field "opacity" fields = None ->
        lookup_field "opacity" members = Some (VNum 0.3%float))
    /\ (lookup_field "colors" fields = None ->
        lookup_field "colors" members
        = Some (VArr [VStr "#2A4B8C"; VStr "#6B46C1"; VStr "#0D9488"; VStr "#EA580C"])).
Proof.
  intros Hwf.
  assert (Hget : forall k,
            get (VObj fields) k = Ok (default VUndefined (lookup_field k fields))).
  { intros k. unfold get. by destruct (lookup_field k fields). }
  eexists. split.
  { unfold config. rewrite !Hget. reflexivity. }
  split; [| split; [| split; [| split; [| split]]]].
  - intros k v Hk. rewrite lookup_spread_object by done. by rewrite Hk.
  - intros Hnone. by rewrite lookup_spread_object, Hnone.
  - intros Hnone. by rewrite lookup_spread_object, Hnone.
  - intros Hnone. rewrite lookup_spread_object, Hnone by done. reflexivity.
  - intros Hnone. rewrite lookup_spread_object, Hnone by done. reflexivity.
  - intros Hnone. rewrite lookup_spread_object, Hnone by done. reflexivity.
Qed.

End NeuralExtra.

(** * The further properties at concrete inputs *)

Module ExtraExamples.
Import JS Host Run Api App Shell NeuralLoader Outcomes MoreOutcomes Scenarios MoreScenarios.
Import ApiFacts AppFacts ApiExtra AppExtra Reference.

Lemma call_returns_what_json_settles_witness :
  fst (call healthy_backend App.api (GetRecommendation (VStr "user_42")) (fresh ∅))
  = Ok healthy_answer.
Proof.
  pose proof (call_returns_what_json_settles healthy_backend App.api
                (GetRecommendation (VStr "user_42")) (fresh ∅) _
                (mkResponse 200 (Ok healthy_answer)) eq_refl eq_refl eq_refl) as Hrun.
  cbn [json] in Hrun. by rewrite Hrun.
Defined.

Lemma trackEvent_payload_witness :
  get (event_payload (VStr "s-1") (VObj forged_event)) "sessionId" = Ok (VStr "forged").
Proof.
  assert (Hwf : well_formed forged_event).
  { unfold well_formed, forged_event. cbn. apply NoDup_ListNoDup.
    repeat constructor; cbn; intuition discriminate. }
  destruct (trackEvent_payload unplugged App.api (VStr "s-1") forged_event Hwf)
    as (_ & Hid & _).
  exact Hid.
Defined.

Lemma init_leaves_the_session_behind_witness :
  fst (init tracker_down (fresh ∅)) = Ok false
  /\ currentSession (app (snd (init tracker_down (fresh ∅)))) = healthy_answer
  /\ storage (snd (init tracker_down (fresh ∅))) !! session_id_key = Some "s-1".
Proof.
  pose (w1 := snd (health_step tracker_down (after (fresh ∅) [init_banner]))).
  pose (w2 := snd (startNewSession tracker_down w1)).
  assert (Hhealth : health_step tracker_down (after (fresh ∅) [init_banner]) = (Ok tt, w1)).
  { vm_compute. reflexivity. }
  assert (Hsession : startNewSession tracker_down w1 = (Ok healthy_answer, w2)).
  { vm_compute. reflexivity. }
  destruct (init_leaves_the_session_behind tracker_down (fresh ∅) w1 healthy_answer w2
              Hhealth Hsession) as [Hcurrent Hstored].
  split; [vm_compute; reflexivity |]. split; [exact Hcurrent |].
  rewrite Hstored. vm_compute. reflexivity.
Defined.

Lemma startNewSession_stores_the_session_id_witness :
  storage (snd (startNewSession terse_backend (fresh ∅))) !! session_id_key
  = Some "undefined".
Proof.
  pose (w1 := stored (fresh ∅) user_id_key first_id).
  pose (w2 := snd (createSession terse_backend App.api
                     (session_data terse_backend first_id (length (trace w1))) w1)).
  assert (Hid : getUserId terse_backend (fresh ∅) = (Ok first_id, w1)).
  { vm_compute. reflexivity. }
  assert (Hcreate : createSession terse_backend App.api
                      (session_data terse_backend first_id (length (trace w1))) w1
                    = (Ok (VObj []), w2)).
  { vm_compute. reflexivity. }
  destruct (startNewSession_stores_the_session_id terse_backend (fresh ∅) first_id w1
              (VObj []) w2 VUndefined "undefined" Hid Hcreate eq_refl eq_refl)
    as (_ & Hstored & _).
  exact Hstored.
Defined.

Lemma startNewSession_failure_stores_nothing_witness :
  (exists e, fst (startNewSession unplugged revisiting) = Err e)
  /\ storage (snd (startNewSession unplugged revisiting)) !! session_id_key = Some "s-old".
Proof.
  pose (w2 := snd (createSession unplugged App.api
                     (session_data unplugged "user_42" (length (trace revisiting)))
                     revisiting)).
  assert (Hid : getUserId unplugged revisiting = (Ok "user_42", revisiting)).
  { vm_compute. reflexivity. }
  assert (Hcreate : createSession unplugged App.api
                      (session_data unplugged "user_42" (length (trace revisiting)))
                      revisiting
                    = (Err (TypeError "Failed to fetch"), w2)).
  { vm_compute. reflexivity. }
  destruct (startNewSession_failure_stores_nothing unplugged revisiting "user_42" revisiting
              Hid _ w2 Hcreate (or_intror (ex_intro _ _ eq_refl)))
    as ((e & Hrun & _) & Hstored & _).
  rewrite Hrun. split; [by exists e |].
  cbn [snd]. rewrite Hstored. vm_compute. reflexivity.
Defined.

Lemma getUserId_generates_witness :
  fst (getUserId unplugged (fresh ∅)) = Ok "user_1700000000000_4fzyo82mv".
Proof.
  assert (Hnone : item_truthy (storage (fresh ∅) !! user_id_key) = false).
  { vm_compute. reflexivity. }
  destruct (getUserId_generates unplugged (fresh ∅) Hnone)
    as (suffix & Hrun & _ & -> & _).
  rewrite Hrun. vm_compute. reflexivity.
Defined.

Lemma loadUserProfile_writes_two_items_at_most_witness :
  storage (snd (loadUserProfile unplugged revisiting)) !! "theme" = Some "dark"
  /\ storage (snd (loadUserProfile unplugged revisiting)) !! session_id_key = Some "s-old".
Proof.
  assert (Hid : getUserId unplugged revisiting = (Ok "user_42", revisiting)).
  { vm_compute. reflexivity. }
  destruct (loadUserProfile_writes_two_items_at_most unplugged revisiting "user_42"
              revisiting Hid) as [_ Hother].
  split.
  - rewrite Hother; [vm_compute; reflexivity | discriminate | discriminate].
  - rewrite Hother; [vm_compute; reflexivity | discriminate | discriminate].
Defined.

Lemma navigateTo_outcomes_witness :
  navigateTo unplugged (VStr "profile") VUndefined (fresh ∅)
  = (Ok tt, after (fresh ∅) [hide_pages; show_page "profile";
                             push_state (VStr "profile") (VObj []) "profile";
                             navigated (VStr "profile") (VObj [])]).
Proof.
  exact (navigateTo_outcomes unplugged (VStr "profile") VUndefined "profile" (fresh ∅)
           eq_refl).
Defined.

(** Against the repository's server, a click on Start: [init] fails at the
    health check, and the puzzle page is opened all the same. *)
Example startPuzzle_on_the_repository_server :
  fst (startPuzzle connected VUndefined (fresh ∅)) = Ok tt
  /\ map describe (trace (snd (startPuzzle connected VUndefined (fresh ∅))))
     = ["console.log"; "fetch /api/health"; "console.error"; "appendChild error-overlay";
        "call trackEvent"; "call classList.remove"; "call classList.add";
        "call history.pushState"; "dispatch app:navigate"].
Proof. split; vm_compute; reflexivity. Qed.

(** When the tracker's [startSession] rejects with [null], [init] throws
    and a click on Start ends there: no puzzle is tracked or opened. *)
Example startPuzzle_when_init_throws :
  fst (startPuzzle tracker_rejects_with_null VUndefined (fresh ∅))
  = Err (TypeError "Cannot read properties of null (reading 'message')")
  /\ map describe (trace (snd (startPuzzle tracker_rejects_with_null VUndefined (fresh ∅))))
     = map describe (trace (snd (init tracker_rejects_with_null (fresh ∅))))
  /\ calls "history.pushState"
       (trace (snd (startPuzzle tracker_rejects_with_null VUndefined (fresh ∅)))) = false.
Proof. split; [| split]; vm_compute; reflexivity. Qed.

Lemma config_defaults_witness :
  exists members,
    config (VObj still_options) = Ok (VObj members)
    /\ lookup_field "nodeCount" members = Some (VNum 30%float)
    /\ lookup_field "speed" members = Some (VNum 0%float).
Proof.
  assert (Hwf : well_formed still_options).
  { unfold well_formed, still_options. cbn. apply NoDup_ListNoDup.
    repeat constructor; cbn; intuition discriminate. }
  destruct (NeuralExtra.config_defaults still_options Hwf)
    as (members & Hconfig & Hcopied & Hnodes & _).
  exists members. split; [exact Hconfig |]. split.
  - rewrite Hnodes; [vm_compute; reflexivity | reflexivity].
  - apply Hcopied. reflexivity.
Defined.

End ExtraExamples.

Module ServerExtraExamples.
Import Server MoreOutcomes ServerExtra.

Lemma worker_exited_keeps_the_pool_witness :
  length (workers (worker_exited 2 (start_master 8))) = 4%nat
  /\ ~ In 2%nat (workers (exits [1; 3]%nat (worker_exited 2 (start_master 8)))).
Proof.
  destruct (worker_exited_keeps_the_pool 2 (start_master 8) (pool_ok_start 8))
    as (_ & Hsize & _ & Hout).
  - vm_compute. right. by left.
  - split; [rewrite Hsize; reflexivity | apply Hout].
Defined.

End ServerExtraExamples.
